(** * FreeSeekR1-Agent: the agent turn loop of [ai.py]

    A shallow embedding of the tool dispatcher ([process_tool_calls]), the
    history compressor ([compress_chat_history]), the token bookkeeping, the
    turn loop and the session loop of [main], and of the tools [edit_file]
    and [open_url], followed by the properties proved of them.

    Conventions of the embedding.
    - The outside world (file system, network, the model behind the provider)
      is an abstract state [World] threaded through every call that touches
      it: a tool's [invoke], the chain's [invoke] and the compressor's
      [invoke].  Nothing is assumed about how these calls use it.
    - A call either returns or raises an instance of Python's [Exception];
      this is what the handlers [except Exception] of the source catch.
      [KeyboardInterrupt] and [SystemExit] are not instances of [Exception]:
      they are the user interrupt that the outermost handler of [main] turns
      into the end of the session, and they are not outcomes of this model.
    - [console.print] is recorded as an event on a console log.  When the
      text printed holds text that is not escaped (a tool name, a summary, a
      query), rich parses it as markup and raises [MarkupError] on a closing
      tag that closes nothing: [renders] says whether rich accepts a text.
      Texts made of constants, numbers and escaped text are accepted.
      What the streaming callback shows while the provider answers belongs
      to the outside world, not to this log. *)

From Stdlib Require Import Ascii String ZArith QArith Qminmax Qround Lia.
From Corelib Require Import PrimFloat.
From Corelib Require SpecFloat.
From Stdlib Require FloatAxioms.
From stdpp Require Import base gmap strings list.

Set Warnings "-register-all".

Open Scope string_scope.
Open Scope list_scope.

(** ** Data model *)

(** Arguments of a tool call: the JSON object the provider produced. *)
Inductive Json : Type :=
| JNull
| JBool (b : bool)
| JNum (n : Z)
| JStr (s : string)
| JArr (items : list Json)
| JObj (fields : list (string * Json)).

(** An element of [response.tool_calls]: a dict with the keys ['name'],
    ['args'] and ['id']. *)
Record ToolCall : Type := mkToolCall {
  tc_name : string;
  tc_args : Json;
  tc_id : string
}.

(** [ToolMessage(content=..., name=..., tool_call_id=...)]. *)
Record ToolMessage : Type := mkToolMessage {
  content : string;
  name : string;
  tool_call_id : string
}.

(** The object returned by [chain.invoke]: text, tool calls, and the usage
    dictionary ([None] when the attribute is absent or is [None]). *)
Record Response : Type := mkResponse {
  r_content : string;
  tool_calls : list ToolCall;
  usage_metadata : option (gmap string Z)
}.

(** An entry of [chat_history]. *)
Inductive Message : Type :=
| HumanMessage (text : string)
| AIMessage (response : Response)
| ToolResult (m : ToolMessage).

(** An instance of [Exception]; [exc_str e] is [str(e)]. *)
Record PyException : Type := mkException { exc_str : string }.

(** What a call does: return a value or raise. *)
Inductive Outcome (A : Type) : Type :=
| Returned (a : A)
| Raised (e : PyException).
Arguments Returned {A} a.
Arguments Raised {A} e.

(** What [console.print] was called with, one constructor per call site;
    [PlainLine] is a print of a text alone. *)
Inductive ConsoleEvent : Type :=
| ToolCallPanel (tool_name : string) (tool_args : Json)
| ResultPanel (text : string)
| ErrorPanel (error_message : string)
| UnknownToolLine (error_message : string)
| CompressingNotice
| CompressedPanel (summary : string)
| CompressionError (detail : string)
| HistoryTooShort
| ContextLine (last_prompt_tokens : Z)
| Separator
| IterationLine (i max_iterations : nat)
| ModelCallError
| CriticalErrorLine
| PlainLine (text : string)
| BlankLine
| TokensLine (prompt completion total : Z)
| TokensUnavailable
| TaskDonePanel
| IterationLimitPanel.

(** The part of rich the source uses. *)
Record Rich : Type := mkRich {
  (** [rich.markup.escape] *)
  escape : string -> string;
  (** whether [console.print] accepts a text as markup *)
  renders : string -> bool;
  (** the [MarkupError] it raises when it does not *)
  markup_error : string -> PyException;
  (** [str(Syntax(json.dumps(tool_args, ...), "json", ...))] *)
  syntax_str : Json -> string
}.

(** ** Python fragments *)

(** [x or y] on integers that may be [None]: [x] when it is truthy. *)
Definition py_or (x : option Z) (y : Z) : Z :=
  match x with
  | Some v => if Z.eqb v 0 then y else v
  | None => y
  end.

(** [d.get(k, 0)]. *)
Definition get0 (d : gmap string Z) (k : string) : Z := default 0%Z (d !! k).

(** [needle in haystack] for strings. *)
Definition contains (haystack needle : string) : Prop :=
  exists before after, haystack = before +:+ needle +:+ after.

Definition newline : string := String "010"%char EmptyString.

(** [s.startswith(p)] *)
Fixpoint startswith (s p : string) : bool :=
  match p with
  | EmptyString => true
  | String c p' =>
      match s with
      | EmptyString => false
      | String d s' => Ascii.eqb c d && startswith s' p'
      end
  end.

(** [s[n:]] *)
Fixpoint skip (n : nat) (s : string) : string :=
  match n with
  | O => s
  | S n' =>
      match s with
      | EmptyString => EmptyString
      | String _ s' => skip n' s'
      end
  end.

(** [needle in haystack], by search from the left. *)
Fixpoint str_in (needle haystack : string) : bool :=
  startswith haystack needle ||
  match haystack with
  | EmptyString => false
  | String _ rest => str_in needle rest
  end.

(** [s.replace(old, new, 1)]: the leftmost occurrence of [old] is replaced. *)
Fixpoint replace_first (old new s : string) : string :=
  if startswith s old then new +:+ skip (String.length old) s
  else
    match s with
    | EmptyString => EmptyString
    | String c rest => String c (replace_first old new rest)
    end.

(** [sep.join(parts)] *)
Fixpoint join (sep : string) (parts : list string) : string :=
  match parts with
  | [] => ""
  | [part] => part
  | part :: rest => part +:+ sep +:+ join sep rest
  end.

(** ** Token bookkeeping (the usage block of the turn loop) *)

(** The three numbers computed from a usage dictionary:
    [prompt], [completion] and [total]. *)
Definition usage_counts (usage : gmap string Z) : Z * Z * Z :=
  let prompt := py_or (usage !! "prompt_tokens") (get0 usage "input_tokens") in
  let completion :=
    py_or (Some (py_or (usage !! "completion_tokens") (get0 usage "output_tokens")))
          (get0 usage "generated_tokens") in
  let total := get0 usage "total_tokens" in
  let total :=
    if (total =? 0)%Z && ((0 <? prompt)%Z || (0 <? completion)%Z)
    then (prompt + completion)%Z else total in
  (prompt, completion, total).

(** Truth value of [hasattr(response, "usage_metadata") and
    response.usage_metadata]: the dictionary when it is there and not empty. *)
Definition reported_usage (response : Response) : option (gmap string Z) :=
  match usage_metadata response with
  | Some usage => if bool_decide (usage = ∅) then None else Some usage
  | None => None
  end.

(** The value assigned to [last_prompt_tokens] after a response. *)
Definition next_prompt_tokens (response : Response) : Z :=
  match reported_usage response with
  | Some usage => fst (fst (usage_counts usage))
  | None => 0%Z
  end.

(** ** Context fullness (the display at the prompt) *)

Definition MAX_CONTEXT_TOKENS : Z := 128000.

(** The exact value of
    [min(100.0, (last_prompt_tokens / MAX_CONTEXT_TOKENS) * 100)], with the
    size of the context as a parameter: the operations on rationals, without
    the rounding of binary64. *)
Definition percentage (max_context last_prompt_tokens : Z) : Q :=
  Qmin 100 (inject_Z last_prompt_tokens / inject_Z max_context * 100).

Definition context_percent (last_prompt_tokens : Z) : Q :=
  percentage MAX_CONTEXT_TOKENS last_prompt_tokens.





Definition bar_length : Z := 20.

(** [int(q)]: rounding towards zero. *)
Definition py_int (q : Q) : Z := Z.quot (Qnum q) (Zpos (Qden q)).

(** [int(bar_length * context_percent / 100)], on the exact value of the
    percentage. *)
Definition filled (context_percent : Q) : Z :=
  py_int (inject_Z bar_length * context_percent / 100).

(** ['█' * filled + '░' * (bar_length - filled)], a cell being [true] when
    it is full; a string times a negative number is empty. *)
Definition bar (filled : Z) : list bool :=
  repeat true (Z.to_nat filled) ++ repeat false (Z.to_nat (bar_length - filled)).

(** The state [main] keeps between inputs. *)
Record Session : Type := mkSession {
  chat_history : list Message;
  last_prompt_tokens : Z
}.

(** How the [for] loop of a turn was left: by the [break] after an answer,
    by the [break] after a failed call of the model, by running out of
    iterations, or by an exception that goes up to the outermost handler of
    [main]. *)
Inductive TurnEnd : Type :=
| TaskDone
| ModelCallFailed
| IterationLimit
| CriticalError (e : PyException).

Definition max_iterations : nat := 50.

Definition compression_prompt_text : string :=
  "Summarize our conversation up to this point. The summary should be a concise yet comprehensive overview of all key topics, questions, answers, and important details discussed. This summary will replace the current chat history to conserve tokens, so it must capture everything essential to understand the context and continue our conversation effectively as if no information was lost.".

Definition summary_prefix : string :=
  "This is a summary of the previous conversation:" +:+ newline.

(** ** The texts printed with text that is not escaped *)

(** The content of the panel of [display_tool_call]. *)
Definition tool_call_markup (rich : Rich) (tool_call : ToolCall) : string :=
  "[bold]Инструмент:[/][cyan]" +:+ tc_name tool_call
    +:+ "[/][bold]Аргументы:[/]" +:+ syntax_str rich (tc_args tool_call).

(** The content of the panel that shows a result. *)
Definition result_markup (rich : Rich) (tool_call : ToolCall) (result : string)
  : string :=
  "[bold green]Результат '" +:+ tc_name tool_call +:+ "':[/]"
    +:+ escape rich result.

(** [error_message] in the [except] branch; it is also the content of the
    error panel. *)
Definition invoke_error_message (rich : Rich) (tool_call : ToolCall)
    (e : PyException) : string :=
  "Ошибка при вызове инструмента '" +:+ tc_name tool_call +:+ "': "
    +:+ escape rich (exc_str e).

(** [error_message] in the [else] branch, and the line printed for it. *)
Definition unknown_tool_message (tool_call : ToolCall) : string :=
  "Неизвестный инструмент: " +:+ tc_name tool_call.

Definition unknown_tool_markup (tool_call : ToolCall) : string :=
  "[bold red]" +:+ unknown_tool_message tool_call +:+ "[/]".

(** The content of the panel that shows the summary. *)
Definition summary_markup (summary : string) : string :=
  "[bold green]История успешно сжата.[/]" +:+ newline
    +:+ "[dim]" +:+ summary +:+ "[/dim]".

(** The line that shows the query in non-interactive mode. *)
Definition query_markup (user_input : string) : string :=
  "[bold green]Запрос:[/][cyan] " +:+ user_input +:+ "[/]".

Section Agent.

(** The state of everything outside the process. *)
Context {World : Type}.

Variable rich : Rich.

(** ** Effects: the world, the console, the calls made to the provider *)

Record Env : Type := mkEnv {
  world : World;
  console : list ConsoleEvent;
  (* the [messages] of every [chain.invoke] so far, oldest first *)
  provider_calls : list (list Message)
}.

Definition M (A : Type) : Type := Env -> A * Env.

Definition ret {A} (a : A) : M A := fun env => (a, env).

Definition bind {A B} (m : M A) (k : A -> M B) : M B :=
  fun env => let (a, env') := m env in k a env'.

Notation "x <- m ;; k" := (bind m (fun x => k))
  (at level 100, m at next level, right associativity).
Notation "m ;; k" := (bind m (fun _ => k))
  (at level 100, right associativity).

(** A step that may raise: when it raises, what follows is not run and the
    exception is the outcome. *)
Definition and_then {A B} (m : M (Outcome A)) (k : A -> M (Outcome B))
  : M (Outcome B) :=
  r <- m ;;
  match r with
  | Returned a => k a
  | Raised e => ret (Raised e)
  end.

(** [try: body except Exception as e: handler e] *)
Definition try_except {A} (body : M (Outcome A))
    (handler : PyException -> M (Outcome A)) : M (Outcome A) :=
  r <- body ;;
  match r with
  | Returned a => ret (Returned a)
  | Raised e => handler e
  end.

Notation "x <-! m ;; k" := (and_then m (fun x => k))
  (at level 100, m at next level, right associativity).
Notation "m ;;! k" := (and_then m (fun _ => k))
  (at level 100, right associativity).

(** [console.print(...)] of constants, numbers and escaped text. *)
Definition console_print (ev : ConsoleEvent) : M unit :=
  fun env => (tt, mkEnv (world env) (console env ++ [ev]) (provider_calls env)).

(** [console.print(...)] of a text that holds text that is not escaped:
    rich parses [markup] first and raises when it does not accept it;
    nothing is printed then. *)
Definition print_markup (markup : string) (ev : ConsoleEvent)
  : M (Outcome unit) :=
  if renders rich markup then console_print ev ;; ret (Returned tt)
  else ret (Raised (markup_error rich markup)).

(** A call that only reads and changes the outside world. *)
Definition in_world {A} (f : World -> A * World) : M A :=
  fun env => let (a, w) := f (world env) in
             (a, mkEnv w (console env) (provider_calls env)).

(** ** Tools *)

(** A tool object: its [name], its [invoke], and what it prints on the
    console while it runs ([create_image] and [get_git_repo] print). *)
Record Tool : Type := mkTool {
  tool_name : string;
  invoke : Json -> World -> Outcome string * World;
  prints : Json -> World -> list ConsoleEvent
}.

(** [{t.name: t for t in tools}]: a later tool replaces an earlier one of the
    same name. *)
Definition tool_map (tools : list Tool) : gmap string Tool :=
  foldl (fun m t => <[tool_name t := t]> m) ∅ tools.

(** [func.invoke(tool_call['args'])] *)
Definition invoke_tool (func : Tool) (args : Json) : M (Outcome string) :=
  fun env =>
    let (r, w) := invoke func args (world env) in
    (r, mkEnv w (console env ++ prints func args (world env))
          (provider_calls env)).

Definition display_tool_call (tool_call : ToolCall) : M (Outcome unit) :=
  print_markup (tool_call_markup rich tool_call)
    (ToolCallPanel (tc_name tool_call) (tc_args tool_call)).

(** The body of the [for] loop of [process_tool_calls]: the message appended
    to [tool_messages] for one tool call, or the exception that leaves the
    function. *)
Definition process_tool_call (tmap : gmap string Tool) (tool_call : ToolCall)
  : M (Outcome ToolMessage) :=
  display_tool_call tool_call ;;!
  match tmap !! tc_name tool_call with
  | Some func =>
      try_except
        (result <-! invoke_tool func (tc_args tool_call) ;;
         print_markup (result_markup rich tool_call result)
           (ResultPanel (result_markup rich tool_call result)) ;;!
         ret (Returned
                (mkToolMessage result (tc_name tool_call) (tc_id tool_call))))
        (fun e =>
           let error_message := invoke_error_message rich tool_call e in
           print_markup error_message (ErrorPanel error_message) ;;!
           ret (Returned
                  (mkToolMessage error_message (tc_name tool_call)
                     (tc_id tool_call))))
  | None =>
      let error_message := unknown_tool_message tool_call in
      print_markup (unknown_tool_markup tool_call)
        (UnknownToolLine error_message) ;;!
      ret (Returned
             (mkToolMessage error_message (tc_name tool_call)
                (tc_id tool_call)))
  end.

(** The [for] loop: [tool_messages] is the list built so far. *)
Fixpoint process_loop (tmap : gmap string Tool) (todo : list ToolCall)
    (tool_messages : list ToolMessage) : M (Outcome (list ToolMessage)) :=
  match todo with
  | [] => ret (Returned tool_messages)
  | tool_call :: rest =>
      m <-! process_tool_call tmap tool_call ;;
      process_loop tmap rest (tool_messages ++ [m])
  end.

Definition process_tool_calls (calls : list ToolCall) (tools : list Tool)
  : M (Outcome (list ToolMessage)) :=
  process_loop (tool_map tools) calls [].

(** ** History compression *)

(** [compression_prompt | compressor_llm], invoked on the messages the
    prompt template builds. *)
Variable compressor_invoke : list Message -> World -> Outcome Response * World.

Definition compress_chat_history (history : list Message) : M (list Message) :=
  console_print CompressingNotice ;;
  r <- try_except
         (response <-! in_world
            (compressor_invoke
               (history ++ [HumanMessage compression_prompt_text])) ;;
          let summary := r_content response in
          print_markup (summary_markup summary) (CompressedPanel summary) ;;!
          ret (Returned [HumanMessage (summary_prefix +:+ summary)]))
         (fun e =>
            console_print (CompressionError (escape rich (exc_str e))) ;;
            ret (Returned history)) ;;
  match r with
  | Returned compressed => ret compressed
  | Raised _ => ret history
  end.

(** ** The interactive loop and the turn loop of [main] *)

(** [prompt | llm_with_tools], as built by [create_llm_chain]. *)
Variable chain_invoke : list Message -> World -> Outcome Response * World.

Variable tools : list Tool.

(** [chain.invoke({"messages": chat_history}, ...)] *)
Definition call_chain (messages : list Message) : M (Outcome Response) :=
  fun env =>
    let (r, w) := chain_invoke messages (world env) in
    (r, mkEnv w (console env) (provider_calls env ++ [messages])).

(** The context line shown before the prompt; its bar and its percentage
    are computed from the count. *)
Definition show_context (s : Session) : M unit :=
  if (0 <? last_prompt_tokens s)%Z then
    console_print (ContextLine (last_prompt_tokens s))
  else ret tt.

(** The branch of the input [/compress]. *)
Definition compress_command (s : Session) : M Session :=
  if (1 <? length (chat_history s))%nat then
    history <- compress_chat_history (chat_history s) ;;
    ret (mkSession history 0)
  else
    console_print HistoryTooShort ;;
    ret s.

(** The usage block: prints the token line and gives the new
    [last_prompt_tokens]. *)
Definition record_usage (response : Response) : M Z :=
  match reported_usage response with
  | Some usage =>
      let '(prompt, completion, total) := usage_counts usage in
      console_print (TokensLine prompt completion total) ;;
      ret prompt
  | None =>
      console_print TokensUnavailable ;;
      ret 0%Z
  end.

(** The body of the [for] loop at index [i].  [None]: the loop goes on to
    the next index; [Some e]: the loop is left, by [break] or, for
    [CriticalError], by the exception that left [process_tool_calls]: the
    response is not appended then. *)
Definition iteration (i : nat) (s : Session) : M (option TurnEnd * Session) :=
  console_print (IterationLine (i + 1) max_iterations) ;;
  r <- call_chain (chat_history s) ;;
  match r with
  | Raised e =>
      console_print ModelCallError ;;
      console_print (PlainLine (escape rich (exc_str e))) ;;
      ret (Some ModelCallFailed, s)
  | Returned response =>
      console_print BlankLine ;;
      prompt <- record_usage response ;;
      match tool_calls response with
      | _ :: _ =>
          dispatched <- process_tool_calls (tool_calls response) tools ;;
          match dispatched with
          | Returned tool_messages =>
              ret (None,
                   mkSession
                     ((chat_history s ++ [AIMessage response])
                        ++ map ToolResult tool_messages)
                     prompt)
          | Raised e =>
              ret (Some (CriticalError e), mkSession (chat_history s) prompt)
          end
      | [] =>
          console_print TaskDonePanel ;;
          ret (Some TaskDone,
               mkSession (chat_history s ++ [AIMessage response]) prompt)
      end
  end.

(** The environment of iteration [i] once the provider has answered
    [response] and left the world [w']: after the iteration line, the call,
    the blank line and the usage block, when the tool calls of the response
    are about to be dispatched. *)
Definition dispatch_env (i : nat) (s : Session) (env : Env)
    (response : Response) (w' : World) : Env :=
  snd (record_usage response
         (mkEnv w'
            ((console env ++ [IterationLine (i + 1) max_iterations])
               ++ [BlankLine])
            (provider_calls env ++ [chat_history s]))).

(** [for i in range(max_iterations): ... else: ...], with [remaining]
    indices to go from [i]; [remaining = 0] is the [else] of the [for]. *)
Fixpoint iterations (remaining i : nat) (s : Session) : M (TurnEnd * Session) :=
  match remaining with
  | O =>
      console_print IterationLimitPanel ;;
      ret (IterationLimit, s)
  | S remaining' =>
      b <- iteration i s ;;
      match b with
      | (Some turn_end, s') => ret (turn_end, s')
      | (None, s') => iterations remaining' (S i) s'
      end
  end.

(** One turn: from the separator line to the end of the [for]. *)
Definition run_turn (user_input : string) (s : Session) : M (TurnEnd * Session) :=
  console_print Separator ;;
  iterations max_iterations 0
    (mkSession (chat_history s ++ [HumanMessage user_input])
               (last_prompt_tokens s)).

(** The session and the environment at the start of the iteration of index
    [i + k], when the loop is at index [i] in [s] and none of the [k]
    iterations in between leaves it. *)
Fixpoint state_at (k i : nat) (s : Session) (env : Env) : option (Session * Env) :=
  match k with
  | O => Some (s, env)
  | S k' =>
      match iteration i s env with
      | (None, s', env') => state_at k' (S i) s' env'
      | (Some _, _, _) => None
      end
  end.

(** The same for the turn that [run_turn user_input s] starts: the state at
    the start of its iteration of index [k]. *)
Definition loop_state (user_input : string) (s : Session) (env : Env) (k : nat)
  : option (Session * Env) :=
  state_at k 0
    (mkSession (chat_history s ++ [HumanMessage user_input])
               (last_prompt_tokens s))
    (snd (console_print Separator env)).

(** ** The loop of [main] *)

(** [str.lower] and [str.strip]. *)
Variable lower : string -> string.
Variable strip : string -> string.

(** [user_input.lower().strip() in ('exit', 'quit', 'q')] *)
Definition is_exit (user_input : string) : bool :=
  let command := strip (lower user_input) in
  String.eqb command "exit" || String.eqb command "quit" || String.eqb command "q".

(** [user_input.lower().strip() == '/compress'] *)
Definition is_compress (user_input : string) : bool :=
  String.eqb (strip (lower user_input)) "/compress".

(** [not user_input.strip()] *)
Definition is_blank (user_input : string) : bool :=
  String.eqb (strip user_input) "".

(** A line that is none of the commands and is not blank: a query. *)
Definition is_query (user_input : string) : bool :=
  negb (is_exit user_input) && negb (is_compress user_input)
    && negb (is_blank user_input).

(** The outermost handler [except Exception as e] of [main]. *)
Definition report_critical (e : PyException) : M unit :=
  console_print CriticalErrorLine ;;
  console_print (PlainLine (escape rich (exc_str e))).

(** What follows a turn in the [while True] loop: an exception that left
    the turn is reported by the outermost handler. *)
Definition after_turn (turn_end : TurnEnd) : M unit :=
  match turn_end with
  | CriticalError e => report_critical e
  | _ => ret tt
  end.

(** The [while True] loop in interactive mode.  [inputs] are the lines the
    prompt returns, one per call; when they are used up the prompt raises
    [EOFError] and the loop is left. *)
Fixpoint interactive (inputs : list string) (s : Session) : M Session :=
  show_context s ;;
  match inputs with
  | [] => ret s
  | user_input :: rest =>
      if is_exit user_input then ret s
      else if is_compress user_input then
        s' <- compress_command s ;;
        interactive rest s'
      else if is_blank user_input then interactive rest s
      else
        r <- run_turn user_input s ;;
        after_turn (fst r) ;;
        interactive rest (snd r)
  end.

(** One pass of the [while True] loop in non-interactive mode, with the
    value of [initial_query] ([None] once it is cleared).  The result says
    whether the loop is left, and gives the new [initial_query]. *)
Definition single_shot_pass (initial_query : option string) (s : Session)
  : M (bool * option string * Session) :=
  match initial_query with
  | None | Some "" =>
      console_print
        (PlainLine
           "[bold red]Ошибка: В неинтерактивном режиме требуется запрос.[/]") ;;
      ret (true, initial_query, s)
  | Some user_input =>
      printed <- print_markup (query_markup user_input)
                   (PlainLine (query_markup user_input)) ;;
      match printed with
      | Raised e =>
          report_critical e ;;
          ret (false, initial_query, s)
      | Returned _ =>
          r <- run_turn user_input s ;;
          match fst r with
          | CriticalError e =>
              report_critical e ;;
              ret (false, None, snd r)
          | _ => ret (true, None, snd r)
          end
      end
  end.

(** The [while True] loop in non-interactive mode, for at most [fuel]
    passes: [None] when the loop is not left within them. *)
Fixpoint single_shot (fuel : nat) (initial_query : option string) (s : Session)
  : M (option Session) :=
  match fuel with
  | O => ret None
  | S fuel' =>
      r <- single_shot_pass initial_query s ;;
      match r with
      | (true, _, s') => ret (Some s')
      | (false, initial_query', s') => single_shot fuel' initial_query' s'
      end
  end.

(** [main] from [chat_history = []] on: [args] is [sys.argv[1:]]; in
    non-interactive mode the loop is run for at most [fuel] passes. *)
Definition main_loop (fuel : nat) (args inputs : list string)
  : M (option Session) :=
  r <- match args with
       | [] =>
           s <- interactive inputs (mkSession [] 0) ;;
           ret (Some s)
       | _ :: _ => single_shot fuel (Some (join " " args)) (mkSession [] 0)
       end ;;
  match r with
  | Some s =>
      console_print (PlainLine "[bold green]Выход...[/]") ;;
      ret (Some s)
  | None => ret None
  end.

End Agent.

(** ** File and process tools *)

(** What [open(filepath, 'r', encoding='utf-8')] and [f.read()] give. *)
Inductive ReadOutcome : Type :=
| ReadText (text : string)
| ReadNotFound (e : PyException)
| ReadFailed (e : PyException).

(** The object [subprocess.run] returns. *)
Record CompletedProcess : Type := mkCompletedProcess {
  returncode : Z;
  stdout : string;
  stderr : string
}.

Section Tools.

Context {World : Type}.

(** Reading a whole file, and writing ([append = false], mode ['w']) or
    appending ([append = true], mode ['a']) a text to a file. *)
Variable read_text : string -> World -> ReadOutcome * World.
Variable write_text : bool -> string -> string -> World -> Outcome unit * World.

(** The body of the tool [edit_file]. *)
Definition edit_file (filepath old_snippet new_snippet : string) (w : World)
  : string * World :=
  match read_text filepath w with
  | (ReadText text, w1) =>
      if str_in old_snippet text then
        let new_content := replace_first old_snippet new_snippet text in
        match write_text false filepath new_content w1 with
        | (Returned _, w2) =>
            ("Файл '" +:+ filepath +:+ "' успешно отредактирован", w2)
        | (Raised e, w2) => ("Ошибка редактирования: " +:+ exc_str e, w2)
        end
      else
        ("Ошибка: Исходный фрагмент не найден в файле '" +:+ filepath +:+ "'",
         w1)
  | (ReadNotFound e, w1) => ("Ошибка редактирования: " +:+ exc_str e, w1)
  | (ReadFailed e, w1) => ("Ошибка редактирования: " +:+ exc_str e, w1)
  end.

(** The child process run to its end, and the [CalledProcessError] of a
    command and its result. *)
Variable spawn : list string -> World -> Outcome CompletedProcess * World.
Variable called_process_error : list string -> CompletedProcess -> PyException.

(** [subprocess.run(argv, capture_output=True, text=True, check=check)]:
    with [check], a return code other than 0 raises. *)
Definition subprocess_run (argv : list string) (check : bool) (w : World)
  : Outcome CompletedProcess * World :=
  match spawn argv w with
  | (Returned res, w1) =>
      if check && negb (returncode res =? 0)%Z
      then (Raised (called_process_error argv res), w1)
      else (Returned res, w1)
  | (Raised e, w1) => (Raised e, w1)
  end.

(** The body of the tool [open_url]. *)
Definition open_url (url : string) (w : World) : Outcome string * World :=
  match subprocess_run ["termux-open-url"; url] true w with
  | (Returned res, w1) =>
      if (returncode res =? 0)%Z
      then (Returned (url +:+ " был успешно открыт"), w1)
      else (Returned ("Ошибка: " +:+ stderr res), w1)
  | (Raised e, w1) => (Raised e, w1)
  end.

End Tools.

(** What [edit_file] answers after its write. *)
Definition edit_report (filepath : string) (written : Outcome unit) : string :=
  match written with
  | Returned _ => "Файл '" +:+ filepath +:+ "' успешно отредактирован"
  | Raised e => "Ошибка редактирования: " +:+ exc_str e
  end.

(** ** The shape of a history *)

(** Reads a history from the left with the ids still to be answered: an
    assistant message opens the ids of its tool calls, a tool message
    answers the first open id, and nothing else may come while ids are
    open. *)
Fixpoint answers_from (pending : list string) (history : list Message) : bool :=
  match history with
  | [] => match pending with [] => true | _ => false end
  | HumanMessage _ :: rest =>
      match pending with [] => answers_from [] rest | _ => false end
  | AIMessage response :: rest =>
      match pending with
      | [] => answers_from (map tc_id (tool_calls response)) rest
      | _ => false
      end
  | ToolResult m :: rest =>
      match pending with
      | id :: pending' =>
          String.eqb id (tool_call_id m) && answers_from pending' rest
      | [] => false
      end
  end.

(** Every tool message answers, in order, a tool call of the assistant
    message before it, and every tool call is answered. *)
Definition well_paired (history : list Message) : Prop :=
  answers_from [] history = true.

(** ** What the specification says of a failed tool call *)







(** ** What the specification says of the recorded usage *)

(** The record as the specification words it: each of [prompt_tokens],
    [completion_tokens] and [total_tokens] is 0 when missing, and the total
    is the sum of the other two exactly when it is missing. *)
Definition spec_record (usage : gmap string Z) : Z * Z * Z :=
  let prompt := get0 usage "prompt_tokens" in
  let completion := get0 usage "completion_tokens" in
  let total :=
    match usage !! "total_tokens" with
    | Some t => t
    | None => (prompt + completion)%Z
    end in
  (prompt, completion, total).

(** The first of the candidates that is present and not 0; 0 when there is
    none. *)
Fixpoint first_nonzero (candidates : list (option Z)) : Z :=
  match candidates with
  | [] => 0%Z
  | Some v :: rest => if (v =? 0)%Z then first_nonzero rest else v
  | None :: rest => first_nonzero rest
  end.

(** ** What the specification says of the percentage *)




(** ** A small world to run the agent in *)

Module Demo.

(** A small rich.  [escape] puts a backslash before every opening bracket;
    the one markup that is rejected is the closing tag "[/b]", which closes
    nothing in the texts printed, unless a backslash comes before it. *)
Definition backslash : ascii := "092"%char.

Fixpoint escape_brackets (text : string) : string :=
  match text with
  | "" => ""
  | String ch rest =>
      if Ascii.eqb ch "["%char
      then String backslash (String ch (escape_brackets rest))
      else String ch (escape_brackets rest)
  end.

Fixpoint closes_nothing (escaped : bool) (markup : string) : bool :=
  match markup with
  | "" => false
  | String ch rest =>
      (negb escaped && startswith markup "[/b]")
      || closes_nothing (Ascii.eqb ch backslash) rest
  end.

Definition rich : Rich :=
  mkRich escape_brackets
         (fun markup => negb (closes_nothing false markup))
         (fun markup =>
            mkException "closing tag '[/b]' doesn't match any open tag")
         (fun _ => "<rich.syntax.Syntax object>").

(** The world is a counter of the calls made into it. *)
Definition run_command : @Tool nat :=
  mkTool "run_command" (fun _ w => (Returned "a.txt", S w)) (fun _ _ => []).

Definition open_url : @Tool nat :=
  mkTool "open_url"
    (fun _ w => (Raised (mkException "exit status 1"), S w)) (fun _ _ => []).

(** A tool that prints while it runs, as [create_image] does. *)
Definition create_image : @Tool nat :=
  mkTool "create_image"
    (fun _ w => (Returned "saved", S w))
    (fun _ _ => [PlainLine "[yellow]Создание изображения...[/]"]).


Definition tools : list (@Tool nat) := [run_command; open_url].

Definition call_ls : ToolCall :=
  mkToolCall "run_command" (JObj [("cmd", JStr "ls")]) "c1".

Definition call_frobnicate : ToolCall :=
  mkToolCall "frobnicate" (JObj []) "c2".

Definition call_open : ToolCall :=
  mkToolCall "open_url" (JObj [("url", JStr "example.org")]) "c3".

Definition call_image : ToolCall :=
  mkToolCall "create_image" (JObj [("prompt", JStr "a cat")]) "c4".

(** A request whose name holds a closing tag. *)
Definition call_tag : ToolCall := mkToolCall "[/b]" (JObj []) "c5".

Definition env0 : @Env nat := mkEnv 0%nat [] [].

(** A provider that is down. *)
Definition chain_down (messages : list Message) (w : nat)
  : Outcome Response * nat :=
  (Raised (mkException "Connection error."), S w).

(** A provider that asks for [ls] once and answers when it has the result. *)
Definition chain_ls (messages : list Message) (w : nat)
  : Outcome Response * nat :=
  match messages with
  | [_] => (Returned (mkResponse "" [call_ls] None), S w)
  | _ => (Returned (mkResponse "a.txt" [] None), S w)
  end.

(** A provider that asks for a tool at every call. *)
Definition chain_again (messages : list Message) (w : nat)
  : Outcome Response * nat :=
  (Returned (mkResponse "" [call_frobnicate] None), S w).

(** A provider that asks for the tool whose name holds a closing tag. *)
Definition chain_tag (messages : list Message) (w : nat)
  : Outcome Response * nat :=
  (Returned (mkResponse "" [call_tag] None), S w).

(** A compressor that answers, one whose summary holds a closing tag, and
    one that is down. *)
Definition compressor_ok (messages : list Message) (w : nat)
  : Outcome Response * nat :=
  (Returned (mkResponse "s" [] None), S w).

Definition compressor_tag (messages : list Message) (w : nat)
  : Outcome Response * nat :=
  (Returned (mkResponse "use [/b] to close" [] None), S w).

Definition compressor_down (messages : list Message) (w : nat)
  : Outcome Response * nat :=
  (Raised (mkException "Connection error."), S w).

Definition two_messages : list Message :=
  [HumanMessage "what is 2+2?"; AIMessage (mkResponse "4" [] None)].

(** What the provider sends through langchain, with a total of 0. *)
Definition usage_aliases : gmap string Z :=
  <["input_tokens" := 10%Z]> (<["output_tokens" := 5%Z]>
    (<["total_tokens" := 0%Z]> ∅)).

Definition usage_plain : gmap string Z :=
  <["prompt_tokens" := 7%Z]> (<["completion_tokens" := 3%Z]> ∅).

End Demo.

(** ** A file system in memory, and a session to run *)

Module DemoTools.

(** Files are the entries of a map from paths to texts; every write
    succeeds. *)
Definition read_text (filepath : string) (w : gmap string string)
  : ReadOutcome * gmap string string :=
  match w !! filepath with
  | Some text => (ReadText text, w)
  | None => (ReadNotFound (mkException "No such file or directory"), w)
  end.

Definition write_text (append : bool) (filepath text : string)
    (w : gmap string string) : Outcome unit * gmap string string :=
  let before := if append then default "" (w !! filepath) else "" in
  (Returned tt, <[filepath := before +:+ text]> w).

Definition notes : gmap string string := <["notes.txt" := "a b a b"]> ∅.

(** A command that ends with the code that is in the world. *)
Definition spawn (argv : list string) (w : Z)
  : Outcome CompletedProcess * Z :=
  (Returned (mkCompletedProcess w "" "not found"), w).

Definition called_process_error (argv : list string) (res : CompletedProcess)
  : PyException :=
  mkException "Command returned non-zero exit status.".

(** Input that needs no case folding and no stripping. *)
Definition lower (text : string) : string := text.
Definition strip (text : string) : string := text.

Definition well_paired_history : list Message :=
  [HumanMessage "list files";
   AIMessage (mkResponse "" [Demo.call_ls] None);
   ToolResult (mkToolMessage "a.txt" "run_command" "c1")].

End DemoTools.

(** * Properties *)

(** ** Strings *)

Lemma append_cons (ch : ascii) (a b : string) :
  String ch a +:+ b = String ch (a +:+ b).
Proof. reflexivity. Qed.




(** The texts printed are kept folded in the proofs. *)
Arguments tool_call_markup : simpl never.
Arguments result_markup : simpl never.
Arguments invoke_error_message : simpl never.
Arguments unknown_tool_message : simpl never.
Arguments unknown_tool_markup : simpl never.
Arguments summary_markup : simpl never.
Arguments query_markup : simpl never.

Section Properties.

Context {World : Type}.
Variable rich : Rich.
Variable compressor_invoke : list Message -> World -> Outcome Response * World.
Variable chain_invoke : list Message -> World -> Outcome Response * World.
Variable tools : list (@Tool World).

Local Abbreviation Env := (@Env World).

(** ** The dispatcher *)

Ltac run_m :=
  unfold and_then, try_except, display_tool_call, print_markup, invoke_tool,
    in_world, bind, ret, console_print;
  simpl.

Lemma process_loop_cons (tmap : gmap string Tool) tool_call rest acc (env : Env) :
  process_loop rich tmap (tool_call :: rest) acc env =
  match process_tool_call rich tmap tool_call env with
  | (Returned m, env') => process_loop rich tmap rest (acc ++ [m]) env'
  | (Raised e, env') => (Raised e, env')
  end.
Proof.
  cbn [process_loop]. unfold and_then, bind, ret.
  now destruct (process_tool_call rich tmap tool_call env) as [[m|e] env'].
Qed.

(** The messages already collected are kept in front, untouched. *)
Lemma process_loop_acc (tmap : gmap string Tool) todo : forall acc (env : Env),
  process_loop rich tmap todo acc env =
  match process_loop rich tmap todo [] env with
  | (Returned ms, env') => (Returned (acc ++ ms), env')
  | (Raised e, env') => (Raised e, env')
  end.
Proof.
  induction todo as [|tool_call rest IH]; intros acc env.
  - simpl. unfold ret. now rewrite app_nil_r.
  - rewrite !process_loop_cons.
    destruct (process_tool_call rich tmap tool_call env) as [[m|e] env'];
      [|reflexivity].
    rewrite (IH (acc ++ [m])), (IH ([] ++ [m])).
    destruct (process_loop rich tmap rest [] env') as [[ms|e] env2];
      [|reflexivity].
    simpl. now rewrite <- app_assoc.
Qed.

(** Requests are processed one after the other, each in the environment the
    previous one left; the first exception ends the processing. *)
Lemma process_tool_calls_cons tool_call rest (env : Env) :
  process_tool_calls rich (tool_call :: rest) tools env =
  match process_tool_call rich (tool_map tools) tool_call env with
  | (Returned m, env1) =>
      match process_tool_calls rich rest tools env1 with
      | (Returned ms, env2) => (Returned (m :: ms), env2)
      | (Raised e, env2) => (Raised e, env2)
      end
  | (Raised e, env1) => (Raised e, env1)
  end.
Proof.
  unfold process_tool_calls. rewrite process_loop_cons.
  destruct (process_tool_call rich (tool_map tools) tool_call env)
    as [[m|e] env1]; [|reflexivity].
  now rewrite process_loop_acc.
Qed.

Lemma process_tool_calls_app before after (env : Env) :
  process_tool_calls rich (before ++ after) tools env =
  match process_tool_calls rich before tools env with
  | (Returned ms1, env1) =>
      match process_tool_calls rich after tools env1 with
      | (Returned ms2, env2) => (Returned (ms1 ++ ms2), env2)
      | (Raised e, env2) => (Raised e, env2)
      end
  | (Raised e, env1) => (Raised e, env1)
  end.
Proof.
  revert env. induction before as [|tool_call before IH]; intros env.
  - simpl. change (process_tool_calls rich [] tools env) with (Returned (@nil ToolMessage), env).
    now destruct (process_tool_calls rich after tools env) as [[ms|e] env2].
  - simpl. rewrite !process_tool_calls_cons.
    destruct (process_tool_call rich (tool_map tools) tool_call env)
      as [[m|e] env0]; [|reflexivity].
    rewrite IH.
    destruct (process_tool_calls rich before tools env0) as [[ms1|e] env1];
      [|reflexivity].
    now destruct (process_tool_calls rich after tools env1) as [[ms2|e] env2].
Qed.

(** The panel of the request comes first; when rich does not accept it,
    nothing else is done for the request. *)
Lemma process_tool_call_not_shown (tmap : gmap string Tool) tool_call (env : Env) :
  renders rich (tool_call_markup rich tool_call) = false ->
  process_tool_call rich tmap tool_call env =
    (Raised (markup_error rich (tool_call_markup rich tool_call)), env).
Proof.
  intros Hno. unfold process_tool_call. run_m. now rewrite Hno.
Qed.

(** Whatever branch is taken, a message that is returned carries the name
    and the id of its request. *)
Lemma process_tool_call_fields (tmap : gmap string Tool) tool_call (env : Env)
    m env' :
  process_tool_call rich tmap tool_call env = (Returned m, env') ->
  name m = tc_name tool_call /\ tool_call_id m = tc_id tool_call.
Proof.
  unfold process_tool_call. run_m.
  destruct (renders rich (tool_call_markup rich tool_call)); simpl;
    [|discriminate].
  destruct (tmap !! tc_name tool_call) as [func|]; simpl.
  - destruct (invoke func (tc_args tool_call) (world env)) as [[result|e] w];
      simpl.
    + destruct (renders rich (result_markup rich tool_call result)); simpl.
      * now intros [= <- _].
      * destruct (renders rich (invoke_error_message rich tool_call _));
          simpl; [now intros [= <- _] | discriminate].
    + destruct (renders rich (invoke_error_message rich tool_call e));
        simpl; [now intros [= <- _] | discriminate].
  - destruct (renders rich (unknown_tool_markup tool_call)); simpl;
      [now intros [= <- _] | discriminate].
Qed.

(** When the dispatcher returns, it returns one message per request, with
    the ids and names of the requests in their order. *)
Lemma process_tool_calls_returned (calls : list ToolCall) : forall (env : Env)
    tool_messages env',
  process_tool_calls rich calls tools env = (Returned tool_messages, env') ->
  length tool_messages = length calls /\
  map tool_call_id tool_messages = map tc_id calls /\
  map name tool_messages = map tc_name calls.
Proof.
  induction calls as [|tool_call rest IH]; intros env ms env' H.
  - injection H as <- _. now repeat split.
  - rewrite process_tool_calls_cons in H.
    destruct (process_tool_call rich (tool_map tools) tool_call env)
      as [[m|e] env1] eqn:Hcall; [|discriminate].
    destruct (process_tool_calls rich rest tools env1) as [[ms'|e] env2] eqn:Hrest;
      [|discriminate].
    injection H as <- _.
    destruct (process_tool_call_fields _ _ _ _ _ Hcall) as [Hn Hi].
    destruct (IH _ _ _ Hrest) as (Hlen & Hids & Hnames).
    simpl. repeat split; congruence.
Qed.

(** C1.  Whenever process_tool_calls returns, it returns one tool message per
    request, with the ids of the requests in their order.  But it does not
    return on every list of requests: the panel of display_tool_call is
    printed outside any try with the tool name not escaped, so on a request
    whose name rich does not accept as markup process_tool_calls raises
    MarkupError.  No list is returned then: the messages of the requests
    before are lost and the requests after are not processed. *)
Theorem process_tool_calls_raises_on_markup (before after : list ToolCall)
    (tool_call : ToolCall) (env : Env) (tool_messages : list ToolMessage)
    (env1 : Env) :
  process_tool_calls rich before tools env = (Returned tool_messages, env1) ->
  renders rich (tool_call_markup rich tool_call) = false ->
  process_tool_calls rich (before ++ tool_call :: after) tools env =
    (Raised (markup_error rich (tool_call_markup rich tool_call)), env1) /\
  (forall calls (env0 : Env) returned env',
      process_tool_calls rich calls tools env0 = (Returned returned, env') ->
      length returned = length calls /\
      map tool_call_id returned = map tc_id calls).
Proof.
  intros Hbefore Hno. split.
  - rewrite process_tool_calls_app, Hbefore, process_tool_calls_cons.
    now rewrite (process_tool_call_not_shown _ _ _ Hno).
  - intros calls env0 returned env' Hret.
    destruct (process_tool_calls_returned calls env0 returned env' Hret)
      as (Hlen & Hids & _).
    now split.
Qed.


End Properties.

Section Compressor.

Context {World : Type}.
Variable rich : Rich.
Variable compressor_invoke : list Message -> World -> Outcome Response * World.
Variable chain_invoke : list Message -> World -> Outcome Response * World.
Variable tools : list (@Tool World).

Local Abbreviation Env := (@Env World).

Ltac run_m :=
  unfold and_then, try_except, display_tool_call, print_markup, invoke_tool,
    in_world, bind, ret, console_print;
  simpl.

(** ** The compressor *)

Abbreviation compression_input history :=
  (history ++ [HumanMessage compression_prompt_text]).

(** The runs of [compress_chat_history], in full. *)
Lemma compress_chat_history_raised (history : list Message) (env : Env)
    (e : PyException) (w' : World) :
  compressor_invoke (compression_input history) (world env) = (Raised e, w') ->
  compress_chat_history rich compressor_invoke history env =
    (history,
     mkEnv w'
       (console env
          ++ [CompressingNotice; CompressionError (escape rich (exc_str e))])
       (provider_calls env)).
Proof.
  intros Hfail. unfold compress_chat_history. run_m.
  rewrite Hfail. simpl. now rewrite <- app_assoc.
Qed.

Lemma compress_chat_history_returned (history : list Message) (env : Env)
    (response : Response) (w' : World) :
  compressor_invoke (compression_input history) (world env)
    = (Returned response, w') ->
  compress_chat_history rich compressor_invoke history env =
    if renders rich (summary_markup (r_content response)) then
      ([HumanMessage (summary_prefix +:+ r_content response)],
       mkEnv w'
         (console env
            ++ [CompressingNotice; CompressedPanel (r_content response)])
         (provider_calls env))
    else
      (history,
       mkEnv w'
         (console env
            ++ [CompressingNotice;
                CompressionError
                  (escape rich
                     (exc_str
                        (markup_error rich
                           (summary_markup (r_content response)))))])
         (provider_calls env)).
Proof.
  intros Hok. unfold compress_chat_history. run_m.
  rewrite Hok. simpl.
  destruct (renders rich (summary_markup (r_content response))); simpl;
    now rewrite <- app_assoc.
Qed.

(** C5.  When the provider call of the compression raises, whatever the
    history and the error, compress_chat_history returns the history it was
    given. *)
Theorem compress_failure_returns_input (history : list Message) (env : Env)
    (e : PyException) (w' : World) :
  compressor_invoke (compression_input history) (world env) = (Raised e, w') ->
  fst (compress_chat_history rich compressor_invoke history env) = history.
Proof.
  intros Hfail. now rewrite (compress_chat_history_raised _ _ _ _ Hfail).
Qed.

(** C6.  When the provider call succeeds with the summary text s,
    compress_chat_history returns the one user message made of
    "This is a summary of the previous conversation:", a line feed, and s
    only if rich accepts the panel that shows s: the panel is printed inside
    the try with s not escaped, so when rich rejects it the handler returns
    the history that was given, as for a failed call. *)
Theorem compress_success_depends_on_markup (history : list Message) (env : Env)
    (response : Response) (w' : World) :
  (1 < length history)%nat ->
  compressor_invoke (compression_input history) (world env)
    = (Returned response, w') ->
  fst (compress_chat_history rich compressor_invoke history env) =
    if renders rich (summary_markup (r_content response))
    then [HumanMessage
            (("This is a summary of the previous conversation:" +:+ newline)
               +:+ r_content response)]
    else history.
Proof.
  intros _ Hok. rewrite (compress_chat_history_returned _ _ _ _ Hok).
  now destruct (renders rich (summary_markup (r_content response))).
Qed.

(** C7 (amended).  With at most one message in the history, the /compress
    command does not call compress_chat_history: it prints the notice and
    leaves the history, the token count and the outside world as they are. *)
Theorem compress_command_short_history (s : Session) (env : Env) :
  (length (chat_history s) <= 1)%nat ->
  compress_command rich compressor_invoke s env =
    (s, mkEnv (world env) (console env ++ [HistoryTooShort]) (provider_calls env)).
Proof.
  intros Hshort. unfold compress_command.
  destruct (1 <? length (chat_history s))%nat eqn:Hlt.
  - apply Nat.ltb_lt in Hlt. lia.
  - reflexivity.
Qed.

(** After a response of the provider the token count is the one of the
    response, however the iteration ends. *)
Lemma iteration_returned_tokens i s (env : Env) response w' :
  chain_invoke (chat_history s) (world env) = (Returned response, w') ->
  last_prompt_tokens (snd (fst (iteration rich chain_invoke tools i s env)))
    = next_prompt_tokens response.
Proof.
  intros Hok. unfold iteration, call_chain. run_m.
  rewrite Hok. simpl. unfold record_usage, next_prompt_tokens.
  destruct (reported_usage response) as [usage|]; simpl.
  - destruct (usage_counts usage) as [[prompt completion] total]. run_m.
    destruct (tool_calls response) as [|tool_call rest]; simpl.
    + reflexivity.
    + now destruct (process_tool_calls rich (tool_call :: rest) tools _)
        as [[ms|e] env2].
  - run_m. destruct (tool_calls response) as [|tool_call rest]; simpl.
    + reflexivity.
    + now destruct (process_tool_calls rich (tool_call :: rest) tools _)
        as [[ms|e] env2].
Qed.

(** C10.  After /compress on a history of more than one message the token
    count is 0, whether the compression succeeded or not: no context line is
    shown before the next prompt, a failed compression leaves the history
    as it was, and the count is set again by the next response of the
    provider. *)
Theorem compress_command_resets_tokens (s : Session) (env : Env) :
  (1 < length (chat_history s))%nat ->
  let '(s', env') := compress_command rich compressor_invoke s env in
  last_prompt_tokens s' = 0%Z /\
  show_context s' env' = (tt, env') /\
  (forall e w',
      compressor_invoke (compression_input (chat_history s)) (world env)
        = (Raised e, w') ->
      chat_history s' = chat_history s) /\
  (forall i response w',
      chain_invoke (chat_history s') (world env') = (Returned response, w') ->
      last_prompt_tokens
        (snd (fst (iteration rich chain_invoke tools i s' env')))
        = next_prompt_tokens response).
Proof.
  intros Hlong. unfold compress_command.
  apply Nat.ltb_lt in Hlong. rewrite Hlong.
  unfold bind at 1.
  pose proof (compress_chat_history_raised (chat_history s) env) as Hfail.
  destruct (compress_chat_history rich compressor_invoke (chat_history s) env)
    as [history env'] eqn:Hc.
  unfold ret. simpl in *. repeat split.
  - intros e w' Hraise. specialize (Hfail e w' Hraise). congruence.
  - intros i response w' Hok.
    apply (iteration_returned_tokens i (mkSession history 0) env' response w').
    exact Hok.
Qed.

End Compressor.

(** ** Context fullness *)

Lemma percent_as_fraction (p : positive) (x : Z) :
  (inject_Z x / inject_Z (Zpos p) * 100 == (100 * x)%Z # p)%Q.
Proof.
  unfold Qeq, Qdiv, Qmult, Qinv, inject_Z. simpl.
  rewrite Pos.mul_1_r. lia.
Qed.









(** ** Token bookkeeping *)

Lemma get0_nonneg (usage : gmap string Z) (k : string) :
  map_Forall (fun _ v => (0 <= v)%Z) usage -> (0 <= get0 usage k)%Z.
Proof.
  intros Hpos. unfold get0.
  destruct (usage !! k) as [v|] eqn:Hk; simpl; [|lia].
  exact (Hpos k v Hk).
Qed.

Lemma py_or_nonneg (x : option Z) (y : Z) :
  (forall v, x = Some v -> (0 <= v)%Z) -> (0 <= y)%Z -> (0 <= py_or x y)%Z.
Proof.
  intros Hx Hy. destruct x as [v|]; simpl; [|assumption].
  destruct (v =? 0)%Z; [assumption | now apply Hx].
Qed.

(** Python's [or] chains pick the first operand that is not falsy. *)
Lemma get0_first_nonzero (usage : gmap string Z) (k : string) :
  get0 usage k = first_nonzero [usage !! k].
Proof.
  unfold get0. destruct (usage !! k) as [v|]; simpl; [|reflexivity].
  destruct (v =? 0)%Z eqn:E; [apply Z.eqb_eq in E; congruence | reflexivity].
Qed.

Lemma py_or_first_nonzero (x : option Z) (rest : list (option Z)) :
  py_or x (first_nonzero rest) = first_nonzero (x :: rest).
Proof. now destruct x. Qed.

Lemma py_or_first_nonzero_snoc (l : list (option Z)) (c : option Z) :
  py_or (Some (first_nonzero l)) (first_nonzero [c]) = first_nonzero (l ++ [c]).
Proof.
  induction l as [|[v|] l IH]; cbn [app first_nonzero].
  - reflexivity.
  - destruct (v =? 0)%Z eqn:E; [exact IH|].
    unfold py_or. now rewrite E.
  - exact IH.
Qed.

(** What is assigned to [last_prompt_tokens] is the value [record_usage]
    returns. *)
Lemma record_usage_value {World : Type} (response : Response) (env : @Env World) :
  fst (record_usage response env) = next_prompt_tokens response.
Proof.
  unfold record_usage, next_prompt_tokens.
  destruct (reported_usage response) as [usage|]; [|reflexivity].
  now destruct (usage_counts usage) as [[prompt completion] total].
Qed.

(** C8 (amended).  From a usage dictionary with non-negative counts the loop
    computes: prompt, the first present and non-zero of prompt_tokens and
    input_tokens; completion, the first present and non-zero of
    completion_tokens, output_tokens and generated_tokens; total,
    total_tokens when it is present and not 0, prompt + completion
    otherwise; each is 0 when nothing is reported for it.  The prompt count
    is what is kept as last_prompt_tokens (0 when the response has no usage
    or an empty one).  When only prompt_tokens, completion_tokens and
    total_tokens are used and the total is not reported as 0, this is the
    record of the specification. *)
Theorem usage_counts_amended (usage : gmap string Z) :
  map_Forall (fun _ v => (0 <= v)%Z) usage ->
  let '(prompt, completion, total) := usage_counts usage in
  prompt = first_nonzero [usage !! "prompt_tokens"; usage !! "input_tokens"] /\
  completion =
    first_nonzero [usage !! "completion_tokens"; usage !! "output_tokens";
                   usage !! "generated_tokens"] /\
  total =
    match usage !! "total_tokens" with
    | Some t => if (t =? 0)%Z then (prompt + completion)%Z else t
    | None => (prompt + completion)%Z
    end /\
  (forall text calls,
      next_prompt_tokens (mkResponse text calls (Some usage))
        = if bool_decide (usage = ∅) then 0%Z else prompt) /\
  (forall text calls, next_prompt_tokens (mkResponse text calls None) = 0%Z) /\
  (usage !! "input_tokens" = None ->
   usage !! "output_tokens" = None ->
   usage !! "generated_tokens" = None ->
   usage !! "total_tokens" <> Some 0%Z ->
   usage_counts usage = spec_record usage).
Proof.
  intros Hpos.
  unfold next_prompt_tokens, reported_usage, spec_record, usage_counts.
  cbv zeta. cbn [fst snd usage_metadata].
  set (prompt := py_or (usage !! "prompt_tokens") (get0 usage "input_tokens")).
  set (completion :=
         py_or (Some (py_or (usage !! "completion_tokens")
                            (get0 usage "output_tokens")))
               (get0 usage "generated_tokens")).
  assert (0 <= prompt)%Z as Hp.
  { apply py_or_nonneg; [|now apply get0_nonneg].
    intros v Hv. exact (Hpos _ v Hv). }
  assert (0 <= completion)%Z as Hc.
  { apply py_or_nonneg; [|now apply get0_nonneg].
    intros v Hv. injection Hv as <-.
    apply py_or_nonneg; [|now apply get0_nonneg].
    intros v Hv. exact (Hpos _ v Hv). }
  repeat split.
  - subst prompt.
    now rewrite get0_first_nonzero, py_or_first_nonzero.
  - subst completion.
    rewrite !get0_first_nonzero.
    rewrite (py_or_first_nonzero (usage !! "completion_tokens")).
    now rewrite py_or_first_nonzero_snoc.
  - unfold get0. destruct (usage !! "total_tokens") as [t|]; simpl.
    + destruct (t =? 0)%Z eqn:Et; simpl; [|reflexivity].
      apply Z.eqb_eq in Et.
      destruct (0 <? prompt)%Z eqn:E1; simpl; [reflexivity|].
      destruct (0 <? completion)%Z eqn:E2; simpl; [reflexivity|].
      apply Z.ltb_ge in E1, E2. lia.
    + destruct (0 <? prompt)%Z eqn:E1; simpl; [reflexivity|].
      destruct (0 <? completion)%Z eqn:E2; simpl; [reflexivity|].
      apply Z.ltb_ge in E1, E2. lia.
  - intros _ _. now destruct (bool_decide (usage = ∅)).
  - intros Hin Hout Hgen Htot.
    assert (prompt = get0 usage "prompt_tokens") as Hprompt.
    { subst prompt. unfold py_or, get0. rewrite Hin.
      destruct (usage !! "prompt_tokens") as [v|]; simpl; [|reflexivity].
      destruct (v =? 0)%Z eqn:E; [apply Z.eqb_eq in E; lia | reflexivity]. }
    assert (completion = get0 usage "completion_tokens") as Hcompletion.
    { subst completion. unfold py_or, get0. rewrite Hout, Hgen.
      destruct (usage !! "completion_tokens") as [v|]; simpl; [|reflexivity].
      destruct (v =? 0)%Z eqn:E; simpl;
        [apply Z.eqb_eq in E; lia | now rewrite E]. }
    rewrite <- Hprompt, <- Hcompletion. f_equal.
    unfold get0. destruct (usage !! "total_tokens") as [t|]; simpl.
    + destruct (t =? 0)%Z eqn:E; simpl; [|reflexivity].
      apply Z.eqb_eq in E. congruence.
    + destruct (0 <? prompt)%Z eqn:E1; simpl; [reflexivity|].
      destruct (0 <? completion)%Z eqn:E2; simpl; [reflexivity|].
      apply Z.ltb_ge in E1, E2. lia.
Qed.

(** ** The turn loop *)

Section TurnLoop.

Context {World : Type}.
Variable rich : Rich.
Variable chain_invoke : list Message -> World -> Outcome Response * World.
Variable tools : list (@Tool World).

Local Abbreviation Env := (@Env World).

Ltac run_m :=
  unfold and_then, try_except, display_tool_call, print_markup, invoke_tool,
    in_world, bind, ret, console_print;
  simpl.

(** The dispatcher does not call the provider. *)
Lemma process_tool_call_provider_calls (tmap : gmap string Tool) tool_call
    (env : Env) :
  provider_calls (snd (process_tool_call rich tmap tool_call env))
  = provider_calls env.
Proof.
  unfold process_tool_call. run_m.
  destruct (renders rich (tool_call_markup rich tool_call)); simpl;
    [|reflexivity].
  destruct (tmap !! tc_name tool_call) as [func|]; simpl.
  - destruct (invoke func (tc_args tool_call) (world env)) as [[result|e] w];
      simpl.
    + destruct (renders rich (result_markup rich tool_call result)); simpl;
        [reflexivity|].
      now destruct (renders rich (invoke_error_message rich tool_call _)).
    + now destruct (renders rich (invoke_error_message rich tool_call e)).
  - now destruct (renders rich (unknown_tool_markup tool_call)).
Qed.

Lemma process_tool_calls_provider_calls calls : forall env : Env,
  provider_calls (snd (process_tool_calls rich calls tools env))
  = provider_calls env.
Proof.
  induction calls as [|tool_call rest IH]; intros env; [reflexivity|].
  rewrite process_tool_calls_cons.
  pose proof (process_tool_call_provider_calls (tool_map tools) tool_call env) as H.
  destruct (process_tool_call rich (tool_map tools) tool_call env)
    as [[m|e] env1]; [|exact H].
  specialize (IH env1).
  destruct (process_tool_calls rich rest tools env1) as [[ms|e] env2];
    simpl in *; congruence.
Qed.

Lemma record_usage_provider_calls response (env : Env) :
  provider_calls (snd (record_usage response env)) = provider_calls env.
Proof.
  unfold record_usage.
  destruct (reported_usage response) as [usage|]; [|reflexivity].
  now destruct (usage_counts usage) as [[prompt completion] total].
Qed.

Lemma record_usage_world response (env : Env) :
  world (snd (record_usage response env)) = world env.
Proof.
  unfold record_usage.
  destruct (reported_usage response) as [usage|]; [|reflexivity].
  now destruct (usage_counts usage) as [[prompt completion] total].
Qed.

(** A failed call of the provider: the loop is left at once, with the
    session as it was. *)
Lemma iteration_raised i s (env : Env) e w' :
  chain_invoke (chat_history s) (world env) = (Raised e, w') ->
  iteration rich chain_invoke tools i s env =
    (Some ModelCallFailed, s,
     mkEnv w'
       (console env ++ [IterationLine (i + 1) max_iterations; ModelCallError;
                        PlainLine (escape rich (exc_str e))])
       (provider_calls env ++ [chat_history s])).
Proof.
  intros Hfail. unfold iteration, call_chain. run_m.
  rewrite Hfail. simpl. now rewrite <- !app_assoc.
Qed.

(** A response of the provider: what the iteration does with it. *)
Lemma iteration_returned i s (env : Env) response w' :
  chain_invoke (chat_history s) (world env) = (Returned response, w') ->
  iteration rich chain_invoke tools i s env =
    match tool_calls response with
    | [] =>
        (Some TaskDone,
         mkSession (chat_history s ++ [AIMessage response])
           (next_prompt_tokens response),
         snd (console_print TaskDonePanel (dispatch_env i s env response w')))
    | _ :: _ =>
        match process_tool_calls rich (tool_calls response) tools
                (dispatch_env i s env response w') with
        | (Returned tool_messages, env') =>
            (None,
             mkSession
               ((chat_history s ++ [AIMessage response])
                  ++ map ToolResult tool_messages)
               (next_prompt_tokens response),
             env')
        | (Raised e, env') =>
            (Some (CriticalError e),
             mkSession (chat_history s) (next_prompt_tokens response), env')
        end
    end.
Proof.
  intros Hok. unfold iteration, call_chain, dispatch_env. run_m.
  rewrite Hok. simpl.
  match goal with |- context [record_usage response ?E] =>
    pose proof (record_usage_value response E) as Hv;
    destruct (record_usage response E) as [prompt env1] end.
  simpl in Hv. subst prompt.
  destruct (tool_calls response) as [|tool_call rest]; simpl; [reflexivity|].
  now destruct (process_tool_calls rich (tool_call :: rest) tools env1)
    as [[ms|e] env2].
Qed.

Lemma dispatch_env_facts i s (env : Env) response w' :
  world (dispatch_env i s env response w') = w' /\
  provider_calls (dispatch_env i s env response w')
    = provider_calls env ++ [chat_history s].
Proof.
  unfold dispatch_env. now rewrite record_usage_world, record_usage_provider_calls.
Qed.

(** One iteration makes exactly one call to the provider, with the history
    as it stands, and only appends to the history. *)
Lemma iteration_spec i s (env : Env) :
  let '(b, s', env') := iteration rich chain_invoke tools i s env in
  provider_calls env' = provider_calls env ++ [chat_history s] /\
  match b with
  | Some ModelCallFailed => s' = s
  | Some (CriticalError _) => chat_history s' = chat_history s
  | Some TaskDone =>
      exists response, chat_history s' = chat_history s ++ [AIMessage response]
  | Some IterationLimit => False
  | None =>
      exists response tool_messages,
        chat_history s' =
          (chat_history s ++ [AIMessage response]) ++ map ToolResult tool_messages
  end.
Proof.
  destruct (chain_invoke (chat_history s) (world env)) as [[response|e] w] eqn:Hc.
  - rewrite (iteration_returned _ _ _ _ _ Hc).
    destruct (dispatch_env_facts i s env response w) as [_ Hp].
    destruct (tool_calls response) as [|tool_call rest].
    + split; [exact Hp | now exists response].
    + pose proof (process_tool_calls_provider_calls (tool_call :: rest)
                    (dispatch_env i s env response w)) as Hd.
      destruct (process_tool_calls rich (tool_call :: rest) tools _)
        as [[tool_messages|e] env2]; simpl in Hd.
      * split; [congruence | now exists response, tool_messages].
      * split; [congruence | reflexivity].
  - rewrite (iteration_raised _ _ _ _ _ Hc). now split.
Qed.

Lemma iteration_prefix i s (env : Env) :
  chat_history s
    `prefix_of` chat_history (snd (fst (iteration rich chain_invoke tools i s env))).
Proof.
  pose proof (iteration_spec i s env) as H.
  destruct (iteration rich chain_invoke tools i s env) as [[b s'] env']. simpl.
  destruct H as [_ H]. destruct b as [[| | |e]|].
  - destruct H as [response ->]. now apply prefix_app_r.
  - now subst.
  - contradiction.
  - now rewrite H.
  - destruct H as (response & tool_messages & ->).
    rewrite <- app_assoc. now apply prefix_app_r.
Qed.

Lemma iterations_succ remaining i s (env : Env) :
  iterations rich chain_invoke tools (S remaining) i s env =
  match iteration rich chain_invoke tools i s env with
  | (Some turn_end, s', env') => (turn_end, s', env')
  | (None, s', env') =>
      iterations rich chain_invoke tools remaining (S i) s' env'
  end.
Proof.
  simpl. unfold bind.
  now destruct (iteration rich chain_invoke tools i s env) as [[[turn_end|] s'] env'].
Qed.

Lemma run_turn_unfold user_input s (env : Env) :
  run_turn rich chain_invoke tools user_input s env =
  iterations rich chain_invoke tools max_iterations 0
    (mkSession (chat_history s ++ [HumanMessage user_input])
               (last_prompt_tokens s))
    (snd (console_print Separator env)).
Proof. reflexivity. Qed.

(** The whole [for] loop: at most [remaining] calls to the provider, each
    with a history that is still the beginning of the final one. *)
Lemma iterations_spec remaining : forall i s (env : Env),
  let '(turn_end, s', env') :=
    iterations rich chain_invoke tools remaining i s env in
  exists calls,
    provider_calls env' = provider_calls env ++ calls /\
    (length calls <= remaining)%nat /\
    chat_history s `prefix_of` chat_history s' /\
    Forall (fun sent => sent `prefix_of` chat_history s') calls /\
    (turn_end = IterationLimit -> length calls = remaining).
Proof.
  induction remaining as [|remaining IH]; intros i s env.
  - simpl. run_m. exists []. rewrite app_nil_r. repeat split; auto.
  - rewrite iterations_succ.
    pose proof (iteration_spec i s env) as Hspec.
    pose proof (iteration_prefix i s env) as Hpre.
    destruct (iteration rich chain_invoke tools i s env) as [[b s1] env1].
    simpl in Hpre. destruct Hspec as [Hcalls Hb].
    destruct b as [turn_end|].
    + exists [chat_history s]. repeat split; simpl; auto.
      * lia.
      * intros ->. contradiction.
    + specialize (IH (S i) s1 env1).
      destruct (iterations rich chain_invoke tools remaining (S i) s1 env1)
        as [[turn_end s'] env'].
      destruct IH as (calls & Hc & Hlen & Hp & Hall & Hlim).
      exists (chat_history s :: calls). repeat split; simpl.
      * rewrite Hc, Hcalls. now rewrite <- app_assoc.
      * lia.
      * now transitivity (chat_history s1).
      * constructor; [now transitivity (chat_history s1) | assumption].
      * intros Hl. now rewrite (Hlim Hl).
Qed.

(** Reaching index [i + k] takes [k] calls to the provider; from there the
    loop runs as it would have from the start. *)
Lemma state_at_iterations k : forall r i s (env : Env) s' env',
  state_at rich chain_invoke tools k i s env = Some (s', env') ->
  iterations rich chain_invoke tools (k + r) i s env
    = iterations rich chain_invoke tools r (i + k) s' env' /\
  exists calls,
    provider_calls env' = provider_calls env ++ calls /\ length calls = k.
Proof.
  induction k as [|k IH]; intros r i s env s' env' Hat; simpl in Hat.
  - injection Hat as <- <-. rewrite Nat.add_0_r. split; [reflexivity|].
    exists []. now rewrite app_nil_r.
  - pose proof (iteration_spec i s env) as Hspec.
    change (S k + r)%nat with (S (k + r)). rewrite iterations_succ.
    destruct (iteration rich chain_invoke tools i s env) as [[b s1] env1].
    destruct b as [turn_end|]; [discriminate|].
    destruct Hspec as [Hcalls _].
    destruct (IH r (S i) s1 env1 s' env' Hat) as (Heq & calls & Hc & Hlen).
    split.
    + rewrite Heq. now rewrite Nat.add_succ_r.
    + exists (chat_history s :: calls). split; simpl; [|lia].
      rewrite Hc, Hcalls. now rewrite <- app_assoc.
Qed.

(** Whatever an iteration of the turn left in the history is still at the
    beginning of the history the loop ends with. *)
Lemma state_at_prefix remaining : forall k i s (env : Env) sk envk,
  (k <= remaining)%nat ->
  state_at rich chain_invoke tools k i s env = Some (sk, envk) ->
  chat_history sk
    `prefix_of`
    chat_history
      (snd (fst (iterations rich chain_invoke tools remaining i s env))).
Proof.
  induction remaining as [|remaining IH]; intros k i s env sk envk Hk Hat.
  - assert (k = 0)%nat as -> by lia. simpl in Hat. injection Hat as <- _.
    reflexivity.
  - destruct k as [|k].
    + simpl in Hat. injection Hat as <- _.
      pose proof (iterations_spec (S remaining) i s env) as H.
      destruct (iterations rich chain_invoke tools (S remaining) i s env)
        as [[turn_end s'] env'].
      now destruct H as (calls & _ & _ & Hp & _).
    + rewrite iterations_succ. cbn [state_at] in Hat.
      destruct (iteration rich chain_invoke tools i s env) as [[[e|] s1] env1];
        [discriminate|].
      apply (IH k (S i) s1 env1 sk envk); [lia | exact Hat].
Qed.

(** When the loop runs out of iterations, the session it ends with is the
    one its last iteration left. *)
Lemma iterations_limit remaining : forall i s (env : Env) s' env',
  iterations rich chain_invoke tools remaining i s env
    = (IterationLimit, s', env') ->
  exists env_last,
    state_at rich chain_invoke tools remaining i s env = Some (s', env_last) /\
    env' = snd (console_print IterationLimitPanel env_last).
Proof.
  induction remaining as [|remaining IH]; intros i s env s' env' H.
  - simpl in H. unfold bind, ret in H. simpl in H. injection H as <- <-.
    now exists env.
  - rewrite iterations_succ in H. cbn [state_at].
    pose proof (iteration_spec i s env) as Hspec.
    destruct (iteration rich chain_invoke tools i s env) as [[[e|] s1] env1].
    + injection H as -> _ _. now destruct Hspec as [_ []].
    + now apply IH.
Qed.

(** C3.  When the call to the provider fails at some iteration of a turn
    (index k, so iteration k + 1), the turn ends there: the session is the one
    that iteration started with, so nothing was appended to the history; the
    failed call is the last call to the provider, the (k + 1)-th of the turn,
    so it was not tried again; and when it is the first iteration, the
    history is the previous one followed by the user message alone. *)
Theorem provider_failure_ends_turn (user_input : string) (s0 : Session)
    (env0 : Env) (k : nat) (s : Session) (env : Env) (e : PyException)
    (w' : World) :
  (k < max_iterations)%nat ->
  loop_state rich chain_invoke tools user_input s0 env0 k = Some (s, env) ->
  chain_invoke (chat_history s) (world env) = (Raised e, w') ->
  let '(turn_end, s', env') :=
    run_turn rich chain_invoke tools user_input s0 env0 in
  turn_end = ModelCallFailed /\
  s' = s /\
  provider_calls env' = provider_calls env ++ [chat_history s] /\
  length (provider_calls env')
    = (length (provider_calls env0) + k + 1)%nat /\
  (k = 0%nat -> chat_history s' = chat_history s0 ++ [HumanMessage user_input]).
Proof.
  intros Hk Hat Hfail. rewrite run_turn_unfold. unfold loop_state in Hat.
  replace max_iterations with (k + S (max_iterations - k - 1))%nat by lia.
  destruct (state_at_iterations k (S (max_iterations - k - 1)) _ _ _ _ _ Hat)
    as (Heq & calls & Hcalls & Hlen).
  rewrite Heq, iterations_succ, (iteration_raised _ _ _ _ _ Hfail).
  cbn [provider_calls snd console_print] in *. repeat split.
  - rewrite Hcalls, !length_app. simpl. lia.
  - intros ->. simpl in Hat. now injection Hat as <- _.
Qed.

(** C4.  A turn makes at most max_iterations = 50 calls to the provider.
    Nothing is taken back: the history with the user message appended, every
    history sent to the provider, and the history that each iteration of the
    turn left, are still the beginning of the history the turn ends with.
    When the turn ends on the iteration limit, exactly 50 calls were made and
    the session it ends with is the session its 50th iteration left, whole. *)
Theorem turn_bounded_by_max_iterations (user_input : string) (s : Session)
    (env : Env) :
  let '(turn_end, s', env') :=
    run_turn rich chain_invoke tools user_input s env in
  max_iterations = 50%nat /\
  exists calls,
    provider_calls env' = provider_calls env ++ calls /\
    (length calls <= max_iterations)%nat /\
    (chat_history s ++ [HumanMessage user_input]) `prefix_of` chat_history s' /\
    Forall (fun sent => sent `prefix_of` chat_history s') calls /\
    (forall k sk envk,
        (k <= max_iterations)%nat ->
        loop_state rich chain_invoke tools user_input s env k = Some (sk, envk) ->
        chat_history sk `prefix_of` chat_history s') /\
    (turn_end = IterationLimit ->
     length calls = max_iterations /\
     exists env_last,
       loop_state rich chain_invoke tools user_input s env max_iterations
         = Some (s', env_last) /\
       env' = snd (console_print IterationLimitPanel env_last)).
Proof.
  rewrite run_turn_unfold. unfold loop_state.
  match goal with |- context [iterations _ _ _ ?r ?i ?s1 ?e1] =>
    pose proof (iterations_spec r i s1 e1) as H;
    pose proof (fun k sk envk => state_at_prefix r k i s1 e1 sk envk) as Hpre;
    pose proof (iterations_limit r i s1 e1) as Hlim;
    destruct (iterations rich chain_invoke tools r i s1 e1)
      as [[turn_end s'] env'] end.
  split; [reflexivity|].
  destruct H as (calls & Hc & Hlen & Hp & Hall & Hl).
  exists calls.
  split; [exact Hc|]. split; [exact Hlen|]. split; [exact Hp|].
  split; [exact Hall|]. split.
  - intros k sk envk Hk Hat. exact (Hpre k sk envk Hk Hat).
  - intros Hend. split; [now apply Hl|]. subst turn_end.
    now apply Hlim.
Qed.

End TurnLoop.

(** * Properties of the rest of [ai.py] *)

(** ** Searching and replacing in strings *)

Lemma length_append (a b : string) :
  String.length (a +:+ b) = (String.length a + String.length b)%nat.
Proof.
  induction a as [|ch a IH]; [reflexivity|].
  rewrite append_cons. simpl. now rewrite IH.
Qed.

Lemma startswith_prefix (p : string) : forall s,
  startswith s p = true <-> exists rest, s = p +:+ rest.
Proof.
  induction p as [|c p IH]; intros s.
  - split; [intros _; now exists s | intros _; now destruct s].
  - destruct s as [|d s]; simpl.
    + split; [discriminate | intros [rest H]; rewrite append_cons in H; discriminate].
    + rewrite andb_true_iff, Ascii.eqb_eq, IH. split.
      * intros [-> [rest ->]]. now exists rest.
      * intros [rest H]. rewrite append_cons in H. injection H as -> ->.
        split; [reflexivity | now exists rest].
Qed.

Lemma skip_append (p rest : string) : skip (String.length p) (p +:+ rest) = rest.
Proof.
  induction p as [|c p IH]; [reflexivity|].
  rewrite append_cons. simpl. exact IH.
Qed.

(** The search behind [old_snippet in content] answers true exactly when
    the text is some text, the needle, and some text. *)
Lemma str_in_contains (needle haystack : string) :
  str_in needle haystack = true <-> contains haystack needle.
Proof.
  unfold contains. split.
  - induction haystack as [|c rest IH]; cbn [str_in]; rewrite orb_true_iff.
    + intros [H|H]; [|discriminate].
      apply startswith_prefix in H as [after ->]. now exists "", after.
    + intros [H|H].
      * apply startswith_prefix in H as [after ->]. now exists "", after.
      * destruct (IH H) as (before & after & ->).
        exists (String c before), after. now rewrite append_cons.
  - intros (before & after & ->).
    induction before as [|c before IH].
    + assert (startswith (needle +:+ after) needle = true) as H
        by (apply startswith_prefix; now exists after).
      change ("" +:+ needle +:+ after) with (needle +:+ after).
      destruct (needle +:+ after); cbn [str_in]; now rewrite H.
    + rewrite append_cons. cbn [str_in]. rewrite IH. apply orb_true_r.
Qed.

(** When the snippet does not occur, [replace] leaves the text as it is. *)
Lemma replace_first_absent (old new s : string) :
  str_in old s = false -> replace_first old new s = s.
Proof.
  induction s as [|c rest IH]; cbn [str_in replace_first]; intros H;
    apply orb_false_iff in H as [Hstart Hrest]; rewrite Hstart.
  - reflexivity.
  - now rewrite (IH Hrest).
Qed.

Lemma replace_first_at_start (old new s : string) :
  startswith s old = true ->
  exists after, s = old +:+ after /\ replace_first old new s = new +:+ after.
Proof.
  intros H. destruct (proj1 (startswith_prefix old s) H) as [after Hs].
  exists after. split; [exact Hs|].
  assert (replace_first old new s = new +:+ skip (String.length old) s) as ->
    by (destruct s; cbn [replace_first]; now rewrite H).
  subst s. now rewrite skip_append.
Qed.

(** When the snippet occurs, [replace] with count 1 replaces its leftmost
    occurrence and nothing else: the text splits into a part before, the
    snippet and a part after, no occurrence starts earlier, and the result
    is the part before, the new snippet and the part after. *)
Lemma replace_first_leftmost (old new s : string) :
  str_in old s = true ->
  exists before after,
    s = before +:+ old +:+ after /\
    replace_first old new s = before +:+ new +:+ after /\
    (forall before' after',
        s = before' +:+ old +:+ after' ->
        (String.length before <= String.length before')%nat).
Proof.
  induction s as [|c rest IH]; intros H;
    match goal with |- context [replace_first _ _ ?t] =>
      destruct (startswith t old) eqn:Hstart end.
  - destruct (replace_first_at_start old new _ Hstart) as (after & Hs & Hr).
    exists "", after. repeat split; [exact Hs | exact Hr | simpl; lia].
  - cbn [str_in] in H. rewrite Hstart in H. discriminate.
  - destruct (replace_first_at_start old new _ Hstart) as (after & Hs & Hr).
    exists "", after. repeat split; [exact Hs | exact Hr | simpl; lia].
  - cbn [str_in] in H. rewrite Hstart in H. simpl in H.
    destruct (IH H) as (before & after & Hs & Hr & Hmin).
    exists (String c before), after.
    cbn [replace_first]. rewrite Hstart, !append_cons, Hr, <- Hs.
    repeat split. intros before' after' Hs'.
    destruct before' as [|c' before'].
    + assert (startswith (String c rest) old = true) as Habs
        by (apply startswith_prefix; now exists after').
      congruence.
    + rewrite append_cons in Hs'. injection Hs' as _ Hs'.
      simpl. specialize (Hmin _ _ Hs'). lia.
Qed.

(** Replacing a snippet by itself changes nothing, whether it occurs or
    not. *)
Lemma replace_first_same (old s : string) : replace_first old old s = s.
Proof.
  induction s as [|c rest IH];
    match goal with |- replace_first _ _ ?t = _ =>
      destruct (startswith t old) eqn:Hstart end.
  - destruct (replace_first_at_start old old _ Hstart) as (after & Hs & Hr).
    congruence.
  - cbn [replace_first]. now rewrite Hstart.
  - destruct (replace_first_at_start old old _ Hstart) as (after & Hs & Hr).
    congruence.
  - cbn [replace_first]. now rewrite Hstart, IH.
Qed.

(** ** The file and process tools *)

Section ToolProperties.

Context {World : Type}.
Variable read_text : string -> World -> ReadOutcome * World.
Variable write_text : bool -> string -> string -> World -> Outcome unit * World.
Variable spawn : list string -> World -> Outcome CompletedProcess * World.
Variable called_process_error : list string -> CompletedProcess -> PyException.

(** X1.  When the file can be read, edit_file writes only if the old snippet
    occurs in its text.  Then the text written is the text read with the
    leftmost occurrence of the old snippet, and that one only, replaced by
    the new snippet, and the answer reports the write.  Otherwise nothing is
    written and the answer says the snippet was not found. *)
Theorem edit_file_replaces_leftmost (filepath old_snippet new_snippet : string)
    (w w1 : World) (text : string) :
  read_text filepath w = (ReadText text, w1) ->
  (contains text old_snippet ->
   exists before after,
     text = before +:+ old_snippet +:+ after /\
     (forall before' after',
         text = before' +:+ old_snippet +:+ after' ->
         (String.length before <= String.length before')%nat) /\
     edit_file read_text write_text filepath old_snippet new_snippet w =
       (edit_report filepath
          (fst (write_text false filepath (before +:+ new_snippet +:+ after) w1)),
        snd (write_text false filepath (before +:+ new_snippet +:+ after) w1))) /\
  (~ contains text old_snippet ->
   edit_file read_text write_text filepath old_snippet new_snippet w =
     ("Ошибка: Исходный фрагмент не найден в файле '" +:+ filepath +:+ "'", w1)).
Proof.
  intros Hread. unfold edit_file. rewrite Hread. split.
  - intros Hin. apply str_in_contains in Hin. rewrite Hin.
    destruct (replace_first_leftmost old_snippet new_snippet text Hin)
      as (before & after & Hs & Hr & Hmin).
    exists before, after. repeat split; [exact Hs | exact Hmin |].
    cbv zeta. rewrite Hr.
    now destruct (write_text false filepath (before +:+ new_snippet +:+ after) w1)
      as [[[]|e] w2].
  - intros Hout.
    destruct (str_in old_snippet text) eqn:Hin; [|reflexivity].
    apply str_in_contains in Hin. contradiction.
Qed.

(** X2.  Editing a snippet into itself writes the text of the file back as
    it was read, whether the snippet occurs once or many times. *)
Theorem edit_file_same_snippet (filepath snippet : string) (w w1 : World)
    (text : string) :
  read_text filepath w = (ReadText text, w1) ->
  contains text snippet ->
  edit_file read_text write_text filepath snippet snippet w =
    (edit_report filepath (fst (write_text false filepath text w1)),
     snd (write_text false filepath text w1)).
Proof.
  intros Hread Hin. unfold edit_file. rewrite Hread.
  apply str_in_contains in Hin. rewrite Hin. cbv zeta.
  rewrite replace_first_same.
  now destruct (write_text false filepath text w1) as [[[]|e] w2].
Qed.

(** X3.  open_url never answers with its error text: when it returns, the
    command ended with code 0 and the answer is the success text; a command
    that ends with another code makes it raise CalledProcessError, because
    the command is run with check=True. *)
Theorem open_url_error_text_unreachable (url : string) (w : World) :
  match spawn ["termux-open-url"; url] w with
  | (Returned res, w1) =>
      open_url spawn called_process_error url w =
        if (returncode res =? 0)%Z
        then (Returned (url +:+ " был успешно открыт"), w1)
        else (Raised (called_process_error ["termux-open-url"; url] res), w1)
  | (Raised e, w1) =>
      open_url spawn called_process_error url w = (Raised e, w1)
  end /\
  (forall answer w',
      open_url spawn called_process_error url w = (Returned answer, w') ->
      answer = url +:+ " был успешно открыт").
Proof.
  unfold open_url, subprocess_run.
  destruct (spawn ["termux-open-url"; url] w) as [[res|e] w1]; simpl.
  - destruct (returncode res =? 0)%Z eqn:Hcode; simpl.
    + rewrite Hcode. split; [reflexivity|]. now intros answer w' [= <- _].
    + split; [reflexivity | discriminate].
  - split; [reflexivity | discriminate].
Qed.

End ToolProperties.

(** ** The registry *)

Section Registry.

Context {World : Type}.
Implicit Types (tools : list (@Tool World)) (t : @Tool World).

Lemma tool_map_snoc tools t :
  tool_map (tools ++ [t]) = <[tool_name t := t]> (tool_map tools).
Proof. unfold tool_map. now rewrite foldl_app. Qed.


(** X4.  The registry built from the list of tools gives, for a name, the
    last tool of the list that bears it, and nothing when no tool bears it: a
    tool that comes later replaces an earlier one of the same name. *)
Theorem tool_map_last_wins tools (n : string) :
  tool_map tools !! n = last (filter (fun t => tool_name t = n) tools).
Proof.
  induction tools as [|t tools IH] using rev_ind; [reflexivity|].
  rewrite tool_map_snoc, filter_app.
  destruct (decide (tool_name t = n)) as [Heq|Hne].
  - rewrite filter_cons_True by assumption. rewrite filter_nil, last_snoc.
    subst n. apply lookup_insert_eq.
  - rewrite filter_cons_False by assumption. rewrite filter_nil, app_nil_r.
    now rewrite lookup_insert_ne.
Qed.

(** X5.  When the names of the tools are pairwise different, every tool of
    the list is found in the registry under its own name. *)
Theorem tool_map_finds_every_tool tools t :
  NoDup (tool_name <$> tools) ->
  t ∈ tools ->
  tool_map tools !! tool_name t = Some t.
Proof.
  induction tools as [|x tools IH] using rev_ind; intros Hnodup Hin.
  - now apply elem_of_nil in Hin.
  - rewrite fmap_app in Hnodup. apply NoDup_app in Hnodup as (Hl & Hx & _).
    rewrite tool_map_snoc. apply elem_of_app in Hin as [Hin|Hin].
    + rewrite lookup_insert_ne; [now apply IH|].
      intros Heq. apply (Hx (tool_name t)).
      * now apply list_elem_of_fmap_2.
      * rewrite <- Heq. simpl. apply list_elem_of_singleton. reflexivity.
    + apply list_elem_of_singleton in Hin as ->. apply lookup_insert_eq.
Qed.

End Registry.

(** ** More on the dispatcher *)

Section DispatcherProperties.

Context {World : Type}.
Variable rich : Rich.
Variable tools : list (@Tool World).

Local Abbreviation Env := (@Env World).

Ltac run_m :=
  unfold and_then, try_except, display_tool_call, print_markup, invoke_tool,
    in_world, bind, ret, console_print;
  simpl.






End DispatcherProperties.

(** ** The shape of the history *)

Lemma answers_from_app (h1 h2 : list Message) : forall pending,
  answers_from pending h1 = true ->
  answers_from [] h2 = true ->
  answers_from pending (h1 ++ h2) = true.
Proof.
  induction h1 as [|[text|response|m] h1 IH]; intros pending H1 H2; simpl in *.
  - now destruct pending.
  - destruct pending; [now apply IH | discriminate].
  - destruct pending; [now apply IH | discriminate].
  - destruct pending as [|id pending]; [discriminate|].
    apply andb_true_iff in H1 as [Hid Hrest].
    rewrite Hid. simpl. now apply IH.
Qed.

(** Tool messages that carry the open ids, in order, answer them all. *)
Lemma answers_from_results (tool_messages : list ToolMessage) :
  answers_from (map tool_call_id tool_messages) (map ToolResult tool_messages)
  = true.
Proof.
  induction tool_messages as [|m ms IH]; [reflexivity|].
  simpl. now rewrite String.eqb_refl, IH.
Qed.

Lemma well_paired_app (h1 h2 : list Message) :
  well_paired h1 -> well_paired h2 -> well_paired (h1 ++ h2).
Proof. apply answers_from_app. Qed.

Section HistoryShape.

Context {World : Type}.
Variable rich : Rich.
Variable compressor_invoke : list Message -> World -> Outcome Response * World.
Variable chain_invoke : list Message -> World -> Outcome Response * World.
Variable tools : list (@Tool World).

Local Abbreviation Env := (@Env World).

(** What one iteration appends is an assistant message followed by the
    answers to its tool calls, or nothing. *)
Lemma iteration_appends i s (env : Env) :
  exists appended,
    chat_history (snd (fst (iteration rich chain_invoke tools i s env)))
      = chat_history s ++ appended /\
    well_paired appended.
Proof.
  destruct (chain_invoke (chat_history s) (world env)) as [[response|e] w] eqn:Hc.
  - rewrite (iteration_returned rich chain_invoke tools i s env response w Hc).
    destruct (tool_calls response) as [|tool_call rest] eqn:Hcalls.
    + exists [AIMessage response]. split; [reflexivity|].
      unfold well_paired. simpl. now rewrite Hcalls.
    + destruct (process_tool_calls rich (tool_call :: rest) tools _)
        as [[tool_messages|e] env2] eqn:Hd.
      * destruct (process_tool_calls_returned rich tools _ _ _ _ Hd)
          as (_ & Hids & _).
        exists ([AIMessage response] ++ map ToolResult tool_messages).
        split; [cbn [fst snd chat_history]; now rewrite <- app_assoc|].
        unfold well_paired. cbn [app answers_from].
        rewrite Hcalls, <- Hids. apply answers_from_results.
      * exists []. split; [simpl; now rewrite app_nil_r | reflexivity].
  - rewrite (iteration_raised rich chain_invoke tools i s env e w Hc).
    exists []. split; [simpl; now rewrite app_nil_r | reflexivity].
Qed.

Lemma iterations_appends remaining : forall i s (env : Env),
  exists appended,
    chat_history
      (snd (fst (iterations rich chain_invoke tools remaining i s env)))
      = chat_history s ++ appended /\
    well_paired appended.
Proof.
  induction remaining as [|remaining IH]; intros i s env.
  - exists []. split; [simpl; now rewrite app_nil_r | reflexivity].
  - rewrite iterations_succ.
    destruct (iteration_appends i s env) as (a1 & H1 & Hp1).
    destruct (iteration rich chain_invoke tools i s env) as [[[turn_end|] s1] env1];
      simpl in H1.
    + now exists a1.
    + destruct (IH (S i) s1 env1) as (a2 & H2 & Hp2).
      exists (a1 ++ a2). split.
      * now rewrite H2, H1, <- app_assoc.
      * now apply well_paired_app.
Qed.

(** A turn appends the user message and then, iteration after iteration,
    assistant messages with the answers to their tool calls. *)
Lemma run_turn_appends (user_input : string) (s : Session) (env : Env) :
  exists appended,
    chat_history
      (snd (fst (run_turn rich chain_invoke tools user_input s env)))
      = chat_history s ++ HumanMessage user_input :: appended /\
    well_paired appended.
Proof.
  rewrite run_turn_unfold.
  match goal with |- context [iterations _ _ _ ?r ?i ?s1 ?e1] =>
    destruct (iterations_appends r i s1 e1) as (appended & -> & Hp) end.
  exists appended. cbn [chat_history]. now rewrite <- app_assoc.
Qed.

(** The /compress command leaves the history as it is or makes it one user
    message. *)
Lemma compress_command_history (s : Session) (env : Env) :
  let history :=
    chat_history (fst (compress_command rich compressor_invoke s env)) in
  history = chat_history s \/ exists text, history = [HumanMessage text].
Proof.
  cbv zeta. unfold compress_command.
  destruct (1 <? length (chat_history s))%nat; [|now left].
  unfold bind, ret.
  destruct (compressor_invoke
              (chat_history s ++ [HumanMessage compression_prompt_text])
              (world env)) as [[response|e] w] eqn:Hc.
  - rewrite (compress_chat_history_returned rich compressor_invoke _ _ _ _ Hc).
    destruct (renders rich (summary_markup (r_content response)));
      [right; eexists; reflexivity | now left].
  - rewrite (compress_chat_history_raised rich compressor_invoke _ _ _ _ Hc).
    now left.
Qed.

(** X9.  A turn keeps the history well paired: if, before the turn, every
    tool message answers in order a tool call of the assistant message before
    it and every tool call is answered, the same holds after the turn,
    however the turn ends. *)
Theorem run_turn_keeps_history_paired (user_input : string) (s : Session)
    (env : Env) :
  well_paired (chat_history s) ->
  well_paired
    (chat_history
       (snd (fst (run_turn rich chain_invoke tools user_input s env)))).
Proof.
  intros Hpaired.
  destruct (run_turn_appends user_input s env) as (appended & -> & Hp).
  apply well_paired_app; [exact Hpaired | exact Hp].
Qed.

(** X10.  The /compress command keeps the history well paired, whether it
    compresses, fails or finds the history too short. *)
Theorem compress_command_keeps_history_paired (s : Session) (env : Env) :
  well_paired (chat_history s) ->
  well_paired
    (chat_history (fst (compress_command rich compressor_invoke s env))).
Proof.
  intros Hpaired.
  destruct (compress_command_history s env) as [-> | [text ->]];
    [exact Hpaired | reflexivity].
Qed.

(** X11.  A response without tool calls ends the turn as done: when the
    provider answers so at the iteration of index k, the turn ends with that
    response appended to the history of that iteration and nothing else, the
    token count is the one of that response, and the call was the (k + 1)-th
    and last of the turn. *)
Theorem answer_without_tool_calls_ends_turn (user_input : string)
    (s0 : Session) (env0 : Env) (k : nat) (s : Session) (env : Env)
    (response : Response) (w' : World) :
  (k < max_iterations)%nat ->
  loop_state rich chain_invoke tools user_input s0 env0 k = Some (s, env) ->
  chain_invoke (chat_history s) (world env) = (Returned response, w') ->
  tool_calls response = [] ->
  let '(turn_end, s', env') :=
    run_turn rich chain_invoke tools user_input s0 env0 in
  turn_end = TaskDone /\
  s' = mkSession (chat_history s ++ [AIMessage response])
         (next_prompt_tokens response) /\
  world env' = w' /\
  provider_calls env' = provider_calls env ++ [chat_history s] /\
  length (provider_calls env')
    = (length (provider_calls env0) + k + 1)%nat.
Proof.
  intros Hk Hat Hok Hnone. rewrite run_turn_unfold. unfold loop_state in Hat.
  replace max_iterations with (k + S (max_iterations - k - 1))%nat by lia.
  destruct (state_at_iterations rich chain_invoke tools k
              (S (max_iterations - k - 1)) _ _ _ _ _ Hat)
    as (Heq & calls & Hcalls & Hlen).
  rewrite Heq, iterations_succ.
  rewrite (iteration_returned rich chain_invoke tools _ _ _ _ _ Hok), Hnone.
  destruct (dispatch_env_facts (0 + k) s env response w') as [Hw Hp].
  cbn [provider_calls world snd console_print] in *.
  repeat split; try assumption.
  rewrite Hp, Hcalls, !length_app. simpl. lia.
Qed.

End HistoryShape.

(** ** The session *)

Section SessionProperties.

Context {World : Type}.
Variable rich : Rich.
Variable compressor_invoke : list Message -> World -> Outcome Response * World.
Variable chain_invoke : list Message -> World -> Outcome Response * World.
Variable tools : list (@Tool World).
Variable lower : string -> string.
Variable strip : string -> string.

Local Abbreviation Env := (@Env World).
Local Abbreviation session :=
  (interactive rich compressor_invoke chain_invoke tools lower strip).

(** X12.  After a /compress that succeeded and whose summary rich accepted,
    a second /compress does nothing: the history is the one summary message,
    so the command only prints its notice and calls no provider. *)
Theorem compress_command_twice (s : Session) (env : Env) (response : Response)
    (w' : World) :
  (1 < length (chat_history s))%nat ->
  compressor_invoke (chat_history s ++ [HumanMessage compression_prompt_text])
    (world env) = (Returned response, w') ->
  renders rich (summary_markup (r_content response)) = true ->
  let '(s1, env1) := compress_command rich compressor_invoke s env in
  s1 = mkSession [HumanMessage (summary_prefix +:+ r_content response)] 0 /\
  world env1 = w' /\
  compress_command rich compressor_invoke s1 env1 =
    (s1, mkEnv w' (console env1 ++ [HistoryTooShort]) (provider_calls env1)).
Proof.
  intros Hlong Hok Hshown. unfold compress_command at 1.
  apply Nat.ltb_lt in Hlong. rewrite Hlong. unfold bind.
  rewrite (compress_chat_history_returned rich compressor_invoke _ _ _ _ Hok).
  rewrite Hshown. unfold ret. now repeat split.
Qed.

Lemma show_context_provider_calls s (env : Env) :
  provider_calls (snd (show_context s env)) = provider_calls env.
Proof. unfold show_context. now destruct (0 <? last_prompt_tokens s)%Z. Qed.

Lemma compress_command_provider_calls s (env : Env) :
  provider_calls (snd (compress_command rich compressor_invoke s env))
  = provider_calls env.
Proof.
  unfold compress_command.
  destruct (1 <? length (chat_history s))%nat; [|reflexivity].
  unfold bind, ret.
  destruct (compressor_invoke
              (chat_history s ++ [HumanMessage compression_prompt_text])
              (world env)) as [[response|e] w] eqn:Hc.
  - rewrite (compress_chat_history_returned rich compressor_invoke _ _ _ _ Hc).
    now destruct (renders rich (summary_markup (r_content response))).
  - now rewrite (compress_chat_history_raised rich compressor_invoke _ _ _ _ Hc).
Qed.

Lemma after_turn_provider_calls turn_end (env : Env) :
  provider_calls (snd (after_turn rich turn_end env)) = provider_calls env.
Proof. now destruct turn_end. Qed.

Lemma run_turn_provider_calls user_input s (env : Env) :
  exists calls,
    provider_calls (snd (run_turn rich chain_invoke tools user_input s env))
      = provider_calls env ++ calls /\
    (length calls <= max_iterations)%nat.
Proof.
  rewrite run_turn_unfold.
  match goal with |- context [iterations _ _ _ ?r ?i ?s1 ?e1] =>
    pose proof (iterations_spec rich chain_invoke tools r i s1 e1) as H;
    destruct (iterations rich chain_invoke tools r i s1 e1)
      as [[turn_end s'] env'] end.
  destruct H as (calls & Hc & Hlen & _). now exists calls.
Qed.

(** One pass of the loop, unfolded. *)
Lemma session_cons user_input rest s (env : Env) :
  session (user_input :: rest) s env =
  let env0 := snd (show_context s env) in
  if is_exit lower strip user_input then (s, env0)
  else if is_compress lower strip user_input then
    let '(s', env1) := compress_command rich compressor_invoke s env0 in
    session rest s' env1
  else if is_blank strip user_input then session rest s env0
  else
    let '(r, env1) := run_turn rich chain_invoke tools user_input s env0 in
    session rest (snd r) (snd (after_turn rich (fst r) env1)).
Proof.
  cbn [interactive]. unfold bind at 1.
  destruct (show_context s env) as [[] env0]. cbn [snd].
  destruct (is_exit lower strip user_input); [reflexivity|].
  destruct (is_compress lower strip user_input); [reflexivity|].
  destruct (is_blank strip user_input); [reflexivity|].
  unfold bind.
  destruct (run_turn rich chain_invoke tools user_input s env0) as [r env1].
  now destruct (after_turn rich (fst r) env1) as [[] env2].
Qed.

Lemma session_nil s (env : Env) :
  session [] s env = (s, snd (show_context s env)).
Proof.
  cbn [interactive]. unfold bind, ret.
  now destruct (show_context s env) as [[] env0].
Qed.

(** X13.  An interactive session makes at most 50 calls to the provider for
    each line of input that is a query: exit commands, /compress commands
    and blank lines make none. *)
Theorem session_provider_calls_bounded (inputs : list string) (s : Session)
    (env : Env) :
  exists calls,
    provider_calls (snd (session inputs s env)) = provider_calls env ++ calls /\
    (length calls
     <= max_iterations * length (List.filter (is_query lower strip) inputs))%nat.
Proof.
  revert s env. induction inputs as [|user_input rest IH]; intros s env.
  - rewrite session_nil. exists []. cbn [snd].
    rewrite show_context_provider_calls, app_nil_r. split; [reflexivity|].
    simpl. lia.
  - rewrite session_cons. cbv zeta. cbn [List.filter]. unfold is_query at 1.
    pose proof (show_context_provider_calls s env) as H0.
    set (env0 := snd (show_context s env)) in *.
    destruct (is_exit lower strip user_input).
    { exists []. cbn [snd]. rewrite H0, app_nil_r. split; [reflexivity|].
      simpl. lia. }
    destruct (is_compress lower strip user_input).
    { pose proof (compress_command_provider_calls s env0) as H1.
      destruct (compress_command rich compressor_invoke s env0) as [s' env1].
      destruct (IH s' env1) as (calls & Hc & Hlen).
      exists calls. cbn [snd] in H1. rewrite Hc, H1, H0.
      split; [reflexivity|]. cbn [negb andb]. lia. }
    destruct (is_blank strip user_input).
    { destruct (IH s env0) as (calls & Hc & Hlen).
      exists calls. rewrite Hc, H0. split; [reflexivity|].
      cbn [negb andb]. lia. }
    destruct (run_turn_provider_calls user_input s env0) as (c1 & H1 & Hl1).
    destruct (run_turn rich chain_invoke tools user_input s env0) as [r env1].
    destruct (IH (snd r) (snd (after_turn rich (fst r) env1)))
      as (calls & Hc & Hlen).
    exists (c1 ++ calls). cbn [snd] in H1.
    rewrite Hc, after_turn_provider_calls, H1, H0.
    split; [now rewrite <- app_assoc|].
    rewrite length_app. cbn [negb andb length]. lia.
Qed.

(** X14.  An exit command ends the session: the lines after it are never
    read, so the session is the same as without them. *)
Theorem session_exit_ignores_rest (before after : list string)
    (user_input : string) (s : Session) (env : Env) :
  is_exit lower strip user_input = true ->
  session (before ++ user_input :: after) s env
  = session (before ++ [user_input]) s env.
Proof.
  intros Hexit. revert s env.
  induction before as [|line before IH]; intros s env.
  - cbn [app]. rewrite !session_cons. cbv zeta. now rewrite Hexit.
  - cbn [app]. rewrite !session_cons. cbv zeta.
    destruct (is_exit lower strip line); [reflexivity|].
    destruct (is_compress lower strip line).
    { destruct (compress_command rich compressor_invoke s _) as [s' env1].
      apply IH. }
    destruct (is_blank strip line); [apply IH|].
    destruct (run_turn rich chain_invoke tools line s _) as [r env1].
    apply IH.
Qed.

(** X15.  A session keeps the history well paired: from a well paired
    history, whatever lines are entered, the history at the end of the
    session is well paired. *)
Theorem session_keeps_history_paired (inputs : list string) (s : Session)
    (env : Env) :
  well_paired (chat_history s) ->
  well_paired (chat_history (fst (session inputs s env))).
Proof.
  revert s env. induction inputs as [|user_input rest IH]; intros s env Hp.
  - now rewrite session_nil.
  - rewrite session_cons. cbv zeta.
    set (env0 := snd (show_context s env)).
    destruct (is_exit lower strip user_input); [exact Hp|].
    destruct (is_compress lower strip user_input).
    { pose proof (compress_command_history rich compressor_invoke s env0) as H.
      destruct (compress_command rich compressor_invoke s env0) as [s' env1].
      apply IH. cbn [fst] in H. destruct H as [-> | [text ->]];
        [exact Hp | reflexivity]. }
    destruct (is_blank strip user_input); [now apply IH|].
    destruct (run_turn_appends rich chain_invoke tools user_input s env0)
      as (appended & Ha & Hpa).
    destruct (run_turn rich chain_invoke tools user_input s env0) as [r env1].
    apply IH. cbn [fst snd] in Ha. rewrite Ha.
    apply well_paired_app; [exact Hp | exact Hpa].
Qed.

(** X16.  Without a /compress command the session only appends to the
    history: the history it started with is the beginning of the history
    it ends with. *)
Theorem session_without_compress_appends (inputs : list string) (s : Session)
    (env : Env) :
  Forall (fun line => is_compress lower strip line = false) inputs ->
  chat_history s `prefix_of` chat_history (fst (session inputs s env)).
Proof.
  revert s env. induction inputs as [|user_input rest IH]; intros s env Hall.
  - now rewrite session_nil.
  - apply Forall_cons in Hall as [Hline Hrest].
    rewrite session_cons. cbv zeta. rewrite Hline.
    set (env0 := snd (show_context s env)).
    destruct (is_exit lower strip user_input); [reflexivity|].
    destruct (is_blank strip user_input); [now apply IH|].
    destruct (run_turn_appends rich chain_invoke tools user_input s env0)
      as (appended & Ha & _).
    destruct (run_turn rich chain_invoke tools user_input s env0) as [r env1].
    cbn [fst snd] in Ha.
    transitivity (chat_history (snd r)); [|now apply IH].
    rewrite Ha. now apply prefix_app_r.
Qed.

End SessionProperties.

(** ** The non-interactive mode *)

Section SingleShot.

Context {World : Type}.
Variable rich : Rich.
Variable compressor_invoke : list Message -> World -> Outcome Response * World.
Variable chain_invoke : list Message -> World -> Outcome Response * World.
Variable tools : list (@Tool World).
Variable lower : string -> string.
Variable strip : string -> string.

Local Abbreviation Env := (@Env World).

Lemma report_critical_provider_calls e (env : Env) :
  provider_calls (snd (report_critical rich e env)) = provider_calls env.
Proof. reflexivity. Qed.

(** One pass with a query that is not empty. *)
Lemma single_shot_pass_query (query : string) s (env : Env) :
  query <> "" ->
  single_shot_pass rich chain_invoke tools (Some query) s env =
  if renders rich (query_markup query) then
    let '(r, env1) :=
      run_turn rich chain_invoke tools query s
        (snd (console_print (PlainLine (query_markup query)) env)) in
    match fst r with
    | CriticalError e =>
        (false, None, snd r, snd (report_critical rich e env1))
    | _ => (true, None, snd r, env1)
    end
  else
    (false, Some query, s,
     snd (report_critical rich (markup_error rich (query_markup query)) env)).
Proof.
  intros Hq. destruct query as [|ch query]; [contradiction|].
  unfold single_shot_pass, print_markup.
  destruct (renders rich (query_markup (String ch query))); [|reflexivity].
  unfold bind, ret. cbn [console_print snd].
  destruct (run_turn rich chain_invoke tools (String ch query) s _)
    as [[turn_end s'] env1].
  now destruct turn_end.
Qed.

(** One pass without a query. *)
Lemma single_shot_pass_no_query (initial_query : option string) s (env : Env) :
  initial_query = None \/ initial_query = Some "" ->
  single_shot_pass rich chain_invoke tools initial_query s env =
    (true, initial_query, s,
     snd (console_print
            (PlainLine
               "[bold red]Ошибка: В неинтерактивном режиме требуется запрос.[/]")
            env)).
Proof. now intros [-> | ->]. Qed.

Lemma single_shot_succ fuel initial_query s (env : Env) :
  single_shot rich chain_invoke tools (S fuel) initial_query s env =
  match single_shot_pass rich chain_invoke tools initial_query s env with
  | (true, _, s', env') => (Some s', env')
  | (false, initial_query', s', env') =>
      single_shot rich chain_invoke tools fuel initial_query' s' env'
  end.
Proof.
  cbn [single_shot]. unfold bind, ret.
  now destruct (single_shot_pass rich chain_invoke tools initial_query s env)
    as [[[[] q] s'] env'].
Qed.

(** A query that rich does not accept is shown on no pass: the loop is not
    left and the provider is not called. *)
Lemma single_shot_not_shown (query : string) s fuel : forall env : Env,
  query <> "" ->
  renders rich (query_markup query) = false ->
  exists env',
    single_shot rich chain_invoke tools fuel (Some query) s env = (None, env') /\
    provider_calls env' = provider_calls env.
Proof.
  induction fuel as [|fuel IH]; intros env Hq Hno.
  - now exists env.
  - rewrite single_shot_succ, (single_shot_pass_query _ _ _ Hq), Hno.
    destruct (IH (snd (report_critical rich
                         (markup_error rich (query_markup query)) env)) Hq Hno)
      as (env' & -> & Hp).
    exists env'. now split.
Qed.

Lemma main_loop_args (fuel : nat) (arg : string) (args inputs : list string)
    (env : Env) :
  main_loop rich compressor_invoke chain_invoke tools lower strip fuel
    (arg :: args) inputs env =
  match single_shot rich chain_invoke tools fuel (Some (join " " (arg :: args)))
          (mkSession [] 0) env with
  | (Some s, env1) =>
      (Some s, snd (console_print (PlainLine "[bold green]Выход...[/]") env1))
  | (None, env1) => (None, env1)
  end.
Proof.
  unfold main_loop, bind, ret.
  now destruct (single_shot rich chain_invoke tools fuel _ _ env) as [[s|] env1].
Qed.

(** X17.  With arguments on the command line the prompt is never read.
    When the arguments joined by spaces are the empty text, the first pass of
    the loop ends the program with no call to the provider and an empty
    history.  When they are a text that rich accepts in the line that shows
    the query, the program ends within two passes, after one turn: at most 50
    calls were made and the history begins with the user message made of the
    arguments joined by spaces.  When rich does not accept that line, no
    number of passes ends the loop, and the provider is never called. *)
Theorem main_loop_single_shot (fuel : nat) (arg : string)
    (args inputs : list string) (env : Env) :
  let query := join " " (arg :: args) in
  let run n :=
    main_loop rich compressor_invoke chain_invoke tools lower strip n
      (arg :: args) in
  run fuel inputs env = run fuel [] env /\
  (query = "" ->
   exists env',
     run (S fuel) inputs env = (Some (mkSession [] 0), env') /\
     provider_calls env' = provider_calls env) /\
  (query <> "" -> renders rich (query_markup query) = true ->
   exists s env' calls appended,
     run (S (S fuel)) inputs env = (Some s, env') /\
     provider_calls env' = provider_calls env ++ calls /\
     (length calls <= max_iterations)%nat /\
     chat_history s = HumanMessage query :: appended) /\
  (query <> "" -> renders rich (query_markup query) = false ->
   exists env',
     run fuel inputs env = (None, env') /\
     provider_calls env' = provider_calls env).
Proof.
  intros query run. split; [reflexivity|]. subst run. cbv beta.
  split; [|split].
  - intros Hq. rewrite main_loop_args. fold query. rewrite Hq.
    rewrite single_shot_succ, single_shot_pass_no_query by now right.
    eexists. split; reflexivity.
  - intros Hq Hshown. rewrite main_loop_args. fold query.
    rewrite single_shot_succ, (single_shot_pass_query _ _ _ Hq), Hshown.
    match goal with |- context [run_turn _ _ _ query ?s0 ?e0] =>
      destruct (run_turn_provider_calls rich chain_invoke tools query s0 e0)
        as (calls & Hc & Hlen);
      destruct (run_turn_appends rich chain_invoke tools query s0 e0)
        as (appended & Ha & _);
      destruct (run_turn rich chain_invoke tools query s0 e0)
        as [[turn_end s'] env1]
    end.
    cbn [fst snd provider_calls console_print chat_history app] in *.
    assert (forall env2 : Env,
      provider_calls env2 = provider_calls env ++ calls ->
      exists s env' calls0 appended0,
        (Some s', snd (console_print (PlainLine "[bold green]Выход...[/]") env2))
          = (Some s, env') /\
        provider_calls env' = provider_calls env ++ calls0 /\
        (length calls0 <= max_iterations)%nat /\
        chat_history s = HumanMessage query :: appended0) as Hdone.
    { intros env2 H2. eexists s', _, calls, appended.
      split; [reflexivity|]. now repeat split. }
    destruct turn_end as [| | |e]; [apply Hdone; exact Hc ..|].
    rewrite single_shot_succ, single_shot_pass_no_query by now left.
    apply Hdone. exact Hc.
  - intros Hq Hno. rewrite main_loop_args. fold query.
    destruct (single_shot_not_shown query (mkSession [] 0) fuel env Hq Hno)
      as (env' & -> & Hp).
    now exists env'.
Qed.

End SingleShot.

(** ** The bar of the context line *)

Lemma py_int_floor (q : Q) : (0 <= q)%Q -> py_int q = Qfloor q.
Proof.
  destruct q as [n d]. unfold Qle, py_int, Qfloor. simpl. intros Hn.
  apply Z.quot_div_nonneg; lia.
Qed.

(** X18.  For a positive token count the bar always has 20 cells: the
    number of full cells lies between 0 and 20, and it is 20 exactly when
    the count has reached the size of the context. *)
Theorem context_bar_has_twenty_cells (x : Z) :
  (0 < x)%Z ->
  let cells := filled (context_percent x) in
  (0 <= cells <= 20)%Z /\
  length (bar cells) = 20%nat /\
  (cells = 20%Z <-> (MAX_CONTEXT_TOKENS <= x)%Z).
Proof.
  intros Hx cells.
  assert (cells = if (x <? MAX_CONTEXT_TOKENS)%Z then (x / 6400)%Z else 20%Z)
    as Hcells.
  { subst cells. unfold filled, context_percent, percentage, bar_length,
      MAX_CONTEXT_TOKENS.
    set (y := (inject_Z x / inject_Z 128000 * 100)%Q).
    assert (y == (100 * x)%Z # 128000)%Q as Hy
      by (subst y; apply percent_as_fraction).
    rewrite py_int_floor.
    - destruct (Q.min_spec 100 y) as [[Hlt ->] | [Hle ->]].
      + rewrite Hy in Hlt. unfold Qlt in Hlt. simpl in Hlt.
        destruct (x <? 128000)%Z eqn:E;
          [apply Z.ltb_lt in E; lia | reflexivity].
      + rewrite Hy in Hle |- *. unfold Qle in Hle. simpl in Hle.
        destruct (x <? 128000)%Z eqn:E.
        * assert (inject_Z 20 * ((100 * x)%Z # 128000) / 100 == x # 6400)%Q
            as -> by (unfold Qeq, Qdiv, Qmult, Qinv; simpl; lia).
          reflexivity.
        * apply Z.ltb_ge in E. assert (x = 128000%Z) as -> by lia.
          reflexivity.
    - destruct (Q.min_spec 100 y) as [[Hlt ->] | [Hle ->]];
        [discriminate|].
      rewrite Hy. unfold Qle, Qdiv, Qmult, Qinv. simpl. lia. }
  unfold MAX_CONTEXT_TOKENS in *. rewrite Hcells.
  destruct (x <? 128000)%Z eqn:E;
    [apply Z.ltb_lt in E | apply Z.ltb_ge in E].
  - assert (0 <= x / 6400 < 20)%Z as Hdiv
      by (split; [apply Z.div_pos; lia | apply Z.div_lt_upper_bound; lia]).
    unfold bar, bar_length. rewrite length_app, !repeat_length.
    repeat split; lia.
  - unfold bar, bar_length. rewrite length_app, !repeat_length.
    repeat split; lia.
Qed.

(** ** Going on to the next iteration *)

Section NextIteration.

Context {World : Type}.
Variable rich : Rich.
Variable chain_invoke : list Message -> World -> Outcome Response * World.
Variable tools : list (@Tool World).

Local Abbreviation Env := (@Env World).

Lemma state_at_succ k : forall i s (env : Env),
  state_at rich chain_invoke tools (S k) i s env =
  match state_at rich chain_invoke tools k i s env with
  | Some (s1, env1) =>
      match iteration rich chain_invoke tools (i + k) s1 env1 with
      | (None, s', env') => Some (s', env')
      | (Some _, _, _) => None
      end
  | None => None
  end.
Proof.
  induction k as [|k IH]; intros i s env.
  - cbn [state_at]. now rewrite Nat.add_0_r.
  - change (state_at rich chain_invoke tools (S (S k)) i s env) with
      (match iteration rich chain_invoke tools i s env with
       | (None, s', env') =>
           state_at rich chain_invoke tools (S k) (S i) s' env'
       | (Some _, _, _) => None
       end).
    change (state_at rich chain_invoke tools (S k) i s env) with
      (match iteration rich chain_invoke tools i s env with
       | (None, s', env') => state_at rich chain_invoke tools k (S i) s' env'
       | (Some _, _, _) => None
       end).
    destruct (iteration rich chain_invoke tools i s env) as [[[e|] s1] env1];
      [reflexivity|].
    rewrite IH. now rewrite Nat.add_succ_r.
Qed.

(** X19.  A response with tool calls, at the iteration of index k: its tool
    calls are dispatched after the usage block.  When the dispatcher returns,
    the iteration does not end the loop: it leaves the history with the
    response and then the tool messages appended, the tool messages carrying
    the ids of the tool calls in their order, the token count of that
    response, and one more call made to the provider; this is the state the
    next iteration starts with.  When the dispatcher raises, the loop is left
    by the exception: neither the response nor any tool message is appended,
    and the token count is the one of the response. *)
Theorem tool_calls_continue_turn (user_input : string) (s0 : Session)
    (env0 : Env) (k : nat) (s : Session) (env : Env) (response : Response)
    (w' : World) :
  loop_state rich chain_invoke tools user_input s0 env0 k = Some (s, env) ->
  chain_invoke (chat_history s) (world env) = (Returned response, w') ->
  tool_calls response <> [] ->
  match process_tool_calls rich (tool_calls response) tools
          (dispatch_env k s env response w') with
  | (Returned tool_messages, env') =>
      loop_state rich chain_invoke tools user_input s0 env0 (S k)
        = Some (mkSession
                  (chat_history s
                     ++ AIMessage response :: map ToolResult tool_messages)
                  (next_prompt_tokens response),
                env') /\
      map tool_call_id tool_messages = map tc_id (tool_calls response) /\
      provider_calls env' = provider_calls env ++ [chat_history s]
  | (Raised e, env') =>
      loop_state rich chain_invoke tools user_input s0 env0 (S k) = None /\
      iteration rich chain_invoke tools k s env
        = (Some (CriticalError e),
           mkSession (chat_history s) (next_prompt_tokens response), env') /\
      provider_calls env' = provider_calls env ++ [chat_history s]
  end.
Proof.
  intros Hat Hok Hcalls. unfold loop_state in *.
  rewrite state_at_succ, Hat. cbn [Nat.add].
  rewrite (iteration_returned rich chain_invoke tools k s env response w' Hok).
  destruct (dispatch_env_facts k s env response w') as [_ Hp].
  pose proof (process_tool_calls_provider_calls rich tools
                (tool_calls response) (dispatch_env k s env response w')) as Hd.
  destruct (tool_calls response) as [|tool_call rest] eqn:Htc;
    [contradiction|].
  destruct (process_tool_calls rich (tool_call :: rest) tools _)
    as [[tool_messages|e] env2] eqn:Hdisp; cbn [snd] in Hd.
  - destruct (process_tool_calls_returned rich tools _ _ _ _ Hdisp)
      as (_ & Hids & _).
    rewrite <- app_assoc. repeat split; [exact Hids | congruence].
  - repeat split. congruence.
Qed.

End NextIteration.

(** ** The arguments of the command line *)

Lemma append_empty (a b : string) : a +:+ b = "" -> a = "" /\ b = "".
Proof.
  destruct a as [|c a]; [now split|].
  rewrite append_cons. discriminate.
Qed.

(** X20.  The arguments joined by spaces are the empty text exactly when
    there is no argument or one empty argument. *)
Theorem join_spaces_empty (args : list string) :
  join " " args = "" <-> args = [] \/ args = [""].
Proof.
  split.
  - destruct args as [|arg [|arg' args]]; cbn [join].
    + now left.
    + intros ->. now right.
    + intros H. apply append_empty in H as [_ H].
      apply append_empty in H as [H _]. discriminate.
  - now intros [-> | ->].
Qed.

(** ** The agent at work *)

(** Scenario A: an answer without tool calls ends the turn in one iteration,
    with the user message and the answer in the history. *)
Example scenario_answer :
  let '(turn_end, s, env) :=
    run_turn Demo.rich
      (fun _ w => (Returned (mkResponse "4" [] None), S w)) Demo.tools
      "what is 2+2?" (mkSession [] 0) Demo.env0 in
  turn_end = TaskDone /\
  chat_history s = Demo.two_messages /\
  length (provider_calls env) = 1%nat.
Proof. vm_compute. repeat split. Qed.

(** Scenario B: one tool call, then the answer: two iterations and four
    messages. *)
Example scenario_tool_call :
  let '(turn_end, s, env) :=
    run_turn Demo.rich Demo.chain_ls Demo.tools "list files"
      (mkSession [] 0) Demo.env0 in
  turn_end = TaskDone /\
  chat_history s =
    [HumanMessage "list files";
     AIMessage (mkResponse "" [Demo.call_ls] None);
     ToolResult (mkToolMessage "a.txt" "run_command" "c1");
     AIMessage (mkResponse "a.txt" [] None)] /\
  length (provider_calls env) = 2%nat.
Proof. vm_compute. repeat split. Qed.

(** A provider that never stops asking for tools is called 50 times; the
    history then holds the user message and 50 responses, each with its tool
    message. *)
Example scenario_iteration_limit :
  let '(turn_end, s, env) :=
    run_turn Demo.rich Demo.chain_again Demo.tools "go"
      (mkSession [] 0) Demo.env0 in
  turn_end = IterationLimit /\
  length (provider_calls env) = 50%nat /\
  length (chat_history s) = 101%nat /\
  last (console env) = Some IterationLimitPanel.
Proof. vm_compute. repeat split. Qed.

(** A request for a tool whose name rich rejects ends the turn by the
    exception: the outermost handler reports it, the response is not in the
    history, and the session goes on to the next prompt. *)
Example scenario_markup_error :
  let '(s, env) :=
    interactive Demo.rich Demo.compressor_ok Demo.chain_tag Demo.tools
      DemoTools.lower DemoTools.strip ["go"] (mkSession [] 0) Demo.env0 in
  chat_history s = [HumanMessage "go"] /\
  console env =
    [Separator; IterationLine 1 50; BlankLine; TokensUnavailable;
     CriticalErrorLine;
     PlainLine
       (escape Demo.rich "closing tag '[/b]' doesn't match any open tag")] /\
  length (provider_calls env) = 1%nat.
Proof. vm_compute. repeat split. Qed.

(** A tool that prints while it runs: its line comes between the panel of
    the request and the panel of the result. *)
Example scenario_tool_prints :
  console
    (snd (process_tool_calls Demo.rich [Demo.call_image]
            [Demo.create_image] Demo.env0)) =
    [ToolCallPanel "create_image" (JObj [("prompt", JStr "a cat")]);
     PlainLine "[yellow]Создание изображения...[/]";
     ResultPanel "[bold green]Результат 'create_image':[/]saved"].
Proof. vm_compute. reflexivity. Qed.

(** Non-interactive mode: the arguments are joined into the query, one turn
    is run and the program ends. *)
Example scenario_single_shot :
  let '(r, env) :=
    main_loop Demo.rich Demo.compressor_ok Demo.chain_ls Demo.tools
      DemoTools.lower DemoTools.strip 1 ["list"; "files"] [] Demo.env0 in
  option_map chat_history r =
    Some [HumanMessage "list files";
          AIMessage (mkResponse "" [Demo.call_ls] None);
          ToolResult (mkToolMessage "a.txt" "run_command" "c1");
          AIMessage (mkResponse "a.txt" [] None)] /\
  length (provider_calls env) = 2%nat /\
  last (console env) = Some (PlainLine "[bold green]Выход...[/]").
Proof. vm_compute. repeat split. Qed.

(** Non-interactive mode with a query that rich rejects: after ten passes
    the loop is still not left, the provider was never called and the console
    holds the ten reports of the outermost handler. *)
Example scenario_single_shot_markup_error :
  let '(r, env) :=
    main_loop Demo.rich Demo.compressor_ok Demo.chain_ls Demo.tools
      DemoTools.lower DemoTools.strip 10 ["[/b]"] [] Demo.env0 in
  r = None /\
  provider_calls env = [] /\
  length (console env) = 20%nat.
Proof. vm_compute. repeat split. Qed.

(** ** The theorems at work *)

(** C1 at three requests, the second of which has a name that rich rejects:
    no list is returned, the message of the first request is lost and the
    third request is not processed. *)
Lemma process_tool_calls_raises_on_markup_witness :
  process_tool_calls Demo.rich [Demo.call_ls] Demo.tools Demo.env0
    = (Returned [mkToolMessage "a.txt" "run_command" "c1"],
       mkEnv 1%nat
         [ToolCallPanel "run_command" (JObj [("cmd", JStr "ls")]);
          ResultPanel "[bold green]Результат 'run_command':[/]a.txt"] []) /\
  renders Demo.rich (tool_call_markup Demo.rich Demo.call_tag) = false /\
  process_tool_calls Demo.rich
    ([Demo.call_ls] ++ Demo.call_tag :: [Demo.call_open]) Demo.tools Demo.env0
    = (Raised (mkException "closing tag '[/b]' doesn't match any open tag"),
       mkEnv 1%nat
         [ToolCallPanel "run_command" (JObj [("cmd", JStr "ls")]);
          ResultPanel "[bold green]Результат 'run_command':[/]a.txt"] []).
Proof.
  assert (process_tool_calls Demo.rich [Demo.call_ls] Demo.tools Demo.env0
    = (Returned [mkToolMessage "a.txt" "run_command" "c1"],
       mkEnv 1%nat
         [ToolCallPanel "run_command" (JObj [("cmd", JStr "ls")]);
          ResultPanel "[bold green]Результат 'run_command':[/]a.txt"] []))
    as H1 by (vm_compute; reflexivity).
  assert (renders Demo.rich (tool_call_markup Demo.rich Demo.call_tag) = false)
    as H2 by (vm_compute; reflexivity).
  split; [exact H1|]. split; [exact H2|].
  exact (proj1 (process_tool_calls_raises_on_markup Demo.rich Demo.tools
                  [Demo.call_ls] [Demo.call_open] Demo.call_tag Demo.env0 _ _
                  H1 H2)).
Defined.



(** C3 at the first iteration: the provider is down (scenario C). *)
Lemma provider_failure_ends_turn_witness :
  (0 < max_iterations)%nat /\
  loop_state Demo.rich Demo.chain_down Demo.tools "hello" (mkSession [] 0)
    Demo.env0 0
    = Some (mkSession [HumanMessage "hello"] 0, mkEnv 0%nat [Separator] []) /\
  Demo.chain_down [HumanMessage "hello"] 0%nat
    = (Raised (mkException "Connection error."), 1%nat) /\
  let '(turn_end, s', env') :=
    run_turn Demo.rich Demo.chain_down Demo.tools "hello" (mkSession [] 0)
      Demo.env0 in
  turn_end = ModelCallFailed /\
  s' = mkSession [HumanMessage "hello"] 0 /\
  provider_calls env' = [] ++ [[HumanMessage "hello"]] /\
  length (provider_calls env') = (0 + 0 + 1)%nat /\
  (0%nat = 0%nat -> chat_history s' = [] ++ [HumanMessage "hello"]).
Proof.
  assert (0 < max_iterations)%nat as H1 by (unfold max_iterations; lia).
  assert (loop_state Demo.rich Demo.chain_down Demo.tools "hello"
            (mkSession [] 0) Demo.env0 0
          = Some (mkSession [HumanMessage "hello"] 0,
                  mkEnv 0%nat [Separator] [])) as H2 by reflexivity.
  assert (Demo.chain_down [HumanMessage "hello"] 0%nat
          = (Raised (mkException "Connection error."), 1%nat)) as H3
    by reflexivity.
  split; [exact H1|]. split; [exact H2|]. split; [exact H3|].
  exact (provider_failure_ends_turn Demo.rich Demo.chain_down Demo.tools
           "hello" (mkSession [] 0) Demo.env0 0
           (mkSession [HumanMessage "hello"] 0) (mkEnv 0%nat [Separator] [])
           (mkException "Connection error.") 1%nat H1 H2 H3).
Defined.

(** C4 at a provider that asks for a tool at every call. *)
Lemma turn_bounded_by_max_iterations_witness :
  let '(turn_end, s', env') :=
    run_turn Demo.rich Demo.chain_again Demo.tools "go" (mkSession [] 0)
      Demo.env0 in
  max_iterations = 50%nat /\
  exists calls,
    provider_calls env' = provider_calls Demo.env0 ++ calls /\
    (length calls <= max_iterations)%nat /\
    (chat_history (mkSession [] 0) ++ [HumanMessage "go"])
      `prefix_of` chat_history s' /\
    Forall (fun sent => sent `prefix_of` chat_history s') calls /\
    (forall k sk envk,
        (k <= max_iterations)%nat ->
        loop_state Demo.rich Demo.chain_again Demo.tools "go" (mkSession [] 0)
          Demo.env0 k = Some (sk, envk) ->
        chat_history sk `prefix_of` chat_history s') /\
    (turn_end = IterationLimit ->
     length calls = max_iterations /\
     exists env_last,
       loop_state Demo.rich Demo.chain_again Demo.tools "go" (mkSession [] 0)
         Demo.env0 max_iterations = Some (s', env_last) /\
       env' = snd (console_print IterationLimitPanel env_last)).
Proof.
  exact (turn_bounded_by_max_iterations Demo.rich Demo.chain_again Demo.tools
           "go" (mkSession [] 0) Demo.env0).
Defined.

(** C5 at a compressor that is down. *)
Lemma compress_failure_returns_input_witness :
  Demo.compressor_down (Demo.two_messages ++ [HumanMessage compression_prompt_text])
    (world Demo.env0)
    = (Raised (mkException "Connection error."), 1%nat) /\
  fst (compress_chat_history Demo.rich Demo.compressor_down
         Demo.two_messages Demo.env0)
    = Demo.two_messages.
Proof.
  split; [reflexivity|].
  apply (compress_failure_returns_input Demo.rich Demo.compressor_down
           Demo.two_messages Demo.env0 (mkException "Connection error.") 1%nat).
  reflexivity.
Defined.

(** C6 at a compressor whose summary holds a closing tag: the call
    succeeded, and what is returned is the history that was given. *)
Lemma compress_success_depends_on_markup_witness :
  (1 < length Demo.two_messages)%nat /\
  Demo.compressor_tag (Demo.two_messages ++ [HumanMessage compression_prompt_text])
    (world Demo.env0)
    = (Returned (mkResponse "use [/b] to close" [] None), 1%nat) /\
  renders Demo.rich (summary_markup "use [/b] to close") = false /\
  fst (compress_chat_history Demo.rich Demo.compressor_tag
         Demo.two_messages Demo.env0)
    = Demo.two_messages.
Proof.
  assert (1 < length Demo.two_messages)%nat as H1 by (simpl; lia).
  assert (renders Demo.rich (summary_markup "use [/b] to close") = false)
    as H3 by (vm_compute; reflexivity).
  split; [exact H1|]. split; [reflexivity|]. split; [exact H3|].
  rewrite (compress_success_depends_on_markup Demo.rich Demo.compressor_tag
             Demo.two_messages Demo.env0
             (mkResponse "use [/b] to close" [] None) 1%nat H1 eq_refl).
  cbn [r_content]. now rewrite H3.
Defined.

(** C7 as the specification states it fails: on a history of one message,
    compress_chat_history with a provider that answers returns the summary,
    not its input. *)
Lemma compress_short_history_not_noop :
  (length [HumanMessage "hello"] <= 1)%nat /\
  fst (compress_chat_history Demo.rich Demo.compressor_ok
         [HumanMessage "hello"] Demo.env0)
    = [HumanMessage
         (("This is a summary of the previous conversation:" +:+ newline)
            +:+ "s")] /\
  fst (compress_chat_history Demo.rich Demo.compressor_ok
         [HumanMessage "hello"] Demo.env0)
    <> [HumanMessage "hello"].
Proof.
  split; [simpl; lia|]. split; [vm_compute; reflexivity|].
  vm_compute. discriminate.
Qed.

(** C7 (amended) on a history of one message. *)
Lemma compress_command_short_history_witness :
  (length (chat_history (mkSession [HumanMessage "hello"] 12)) <= 1)%nat /\
  compress_command Demo.rich Demo.compressor_ok
    (mkSession [HumanMessage "hello"] 12) Demo.env0
  = (mkSession [HumanMessage "hello"] 12, mkEnv 0%nat [HistoryTooShort] []).
Proof.
  assert (length (chat_history (mkSession [HumanMessage "hello"] 12)) <= 1)%nat
    as H1 by (simpl; lia).
  split; [exact H1|].
  apply (compress_command_short_history Demo.rich Demo.compressor_ok
           (mkSession [HumanMessage "hello"] 12) Demo.env0 H1).
Defined.

(** C8 as the specification states it fails: with the keys langchain uses
    and a total of 0, the loop computes (10, 5, 15) where the record of the
    specification is (0, 0, 0). *)
Lemma usage_counts_differs_from_spec :
  usage_counts Demo.usage_aliases = (10, 5, 15)%Z /\
  spec_record Demo.usage_aliases = (0, 0, 0)%Z /\
  usage_counts Demo.usage_aliases <> spec_record Demo.usage_aliases.
Proof.
  split; [vm_compute; reflexivity|]. split; [vm_compute; reflexivity|].
  vm_compute. discriminate.
Qed.

(** C8 (amended) on that dictionary. *)
Lemma usage_counts_amended_witness :
  map_Forall (fun _ v => (0 <= v)%Z) Demo.usage_aliases /\
  let '(prompt, completion, total) := usage_counts Demo.usage_aliases in
  prompt = 10%Z /\ completion = 5%Z /\ total = 15%Z.
Proof.
  assert (map_Forall (fun _ v => (0 <= v)%Z) Demo.usage_aliases) as H1.
  { unfold Demo.usage_aliases. repeat apply map_Forall_insert_2; try lia.
    apply map_Forall_empty. }
  split; [exact H1|].
  pose proof (usage_counts_amended Demo.usage_aliases H1) as H.
  destruct (usage_counts Demo.usage_aliases) as [[prompt completion] total].
  destruct H as (Hp & Hc & Ht & _).
  vm_compute in Hp, Hc. rewrite Hp, Hc in Ht. vm_compute in Ht.
  now rewrite Hp, Hc, Ht.
Defined.



(** C10 at a compressor that is down: the tokens are reset all the same. *)
Lemma compress_command_resets_tokens_witness :
  (1 < length (chat_history (mkSession Demo.two_messages 4200)))%nat /\
  let '(s', env') :=
    compress_command Demo.rich Demo.compressor_down
      (mkSession Demo.two_messages 4200) Demo.env0 in
  last_prompt_tokens s' = 0%Z /\ chat_history s' = Demo.two_messages.
Proof.
  assert (1 < length (chat_history (mkSession Demo.two_messages 4200)))%nat
    as H1 by (simpl; lia).
  split; [exact H1|].
  pose proof (compress_command_resets_tokens Demo.rich Demo.compressor_down
                Demo.chain_down Demo.tools
                (mkSession Demo.two_messages 4200) Demo.env0 H1) as H.
  destruct (compress_command Demo.rich Demo.compressor_down
              (mkSession Demo.two_messages 4200) Demo.env0) as [s' env'].
  destruct H as (Hzero & _ & Hkeep & _).
  split; [exact Hzero|].
  exact (Hkeep (mkException "Connection error.") 1%nat eq_refl).
Defined.

(** ** The properties at work *)

Lemma edit_file_replaces_leftmost_witness :
  DemoTools.read_text "notes.txt" DemoTools.notes
    = (ReadText "a b a b", DemoTools.notes) /\
  contains "a b a b" "b" /\
  exists before after,
    "a b a b" = before +:+ "b" +:+ after /\
    (forall before' after',
        "a b a b" = before' +:+ "b" +:+ after' ->
        (String.length before <= String.length before')%nat) /\
    edit_file DemoTools.read_text DemoTools.write_text "notes.txt" "b" "c"
      DemoTools.notes =
      (edit_report "notes.txt"
         (fst (DemoTools.write_text false "notes.txt"
                 (before +:+ "c" +:+ after) DemoTools.notes)),
       snd (DemoTools.write_text false "notes.txt"
              (before +:+ "c" +:+ after) DemoTools.notes)).
Proof.
  assert (contains "a b a b" "b") as Hin by (exists "a ", " a b"; reflexivity).
  split; [reflexivity|]. split; [exact Hin|].
  exact (proj1 (edit_file_replaces_leftmost DemoTools.read_text
                  DemoTools.write_text "notes.txt" "b" "c" DemoTools.notes
                  DemoTools.notes "a b a b" eq_refl) Hin).
Defined.

Lemma edit_file_same_snippet_witness :
  DemoTools.read_text "notes.txt" DemoTools.notes
    = (ReadText "a b a b", DemoTools.notes) /\
  contains "a b a b" "b" /\
  edit_file DemoTools.read_text DemoTools.write_text "notes.txt" "b" "b"
    DemoTools.notes =
    (edit_report "notes.txt"
       (fst (DemoTools.write_text false "notes.txt" "a b a b" DemoTools.notes)),
     snd (DemoTools.write_text false "notes.txt" "a b a b" DemoTools.notes)).
Proof.
  assert (contains "a b a b" "b") as Hin by (exists "a ", " a b"; reflexivity).
  split; [reflexivity|]. split; [exact Hin|].
  exact (edit_file_same_snippet DemoTools.read_text DemoTools.write_text
           "notes.txt" "b" DemoTools.notes DemoTools.notes "a b a b"
           eq_refl Hin).
Defined.

Lemma tool_map_finds_every_tool_witness :
  NoDup (tool_name <$> Demo.tools) /\
  Demo.open_url ∈ Demo.tools /\
  tool_map Demo.tools !! "open_url" = Some Demo.open_url.
Proof.
  assert (NoDup (tool_name <$> Demo.tools)) as H1.
  { apply NoDup_cons. split; [|apply NoDup_singleton].
    intros H. apply list_elem_of_singleton in H. discriminate. }
  assert (Demo.open_url ∈ Demo.tools) as H2
    by (unfold Demo.tools; apply list_elem_of_further, list_elem_of_here).
  split; [exact H1|]. split; [exact H2|].
  exact (tool_map_finds_every_tool Demo.tools Demo.open_url H1 H2).
Defined.




Lemma run_turn_keeps_history_paired_witness :
  well_paired (chat_history (mkSession DemoTools.well_paired_history 0)) /\
  well_paired
    (chat_history
       (snd (fst (run_turn Demo.rich Demo.chain_again Demo.tools "go on"
                    (mkSession DemoTools.well_paired_history 0) Demo.env0)))).
Proof.
  assert (well_paired (chat_history (mkSession DemoTools.well_paired_history 0)))
    as H1 by reflexivity.
  split; [exact H1|].
  exact (run_turn_keeps_history_paired Demo.rich Demo.chain_again Demo.tools
           "go on" (mkSession DemoTools.well_paired_history 0) Demo.env0 H1).
Defined.

Lemma compress_command_keeps_history_paired_witness :
  well_paired (chat_history (mkSession DemoTools.well_paired_history 0)) /\
  well_paired
    (chat_history
       (fst (compress_command Demo.rich Demo.compressor_down
               (mkSession DemoTools.well_paired_history 0) Demo.env0))).
Proof.
  assert (well_paired (chat_history (mkSession DemoTools.well_paired_history 0)))
    as H1 by reflexivity.
  split; [exact H1|].
  exact (compress_command_keeps_history_paired Demo.rich Demo.compressor_down
           (mkSession DemoTools.well_paired_history 0) Demo.env0 H1).
Defined.

Lemma answer_without_tool_calls_ends_turn_witness :
  (1 < max_iterations)%nat /\
  let '(turn_end, s', env') :=
    run_turn Demo.rich Demo.chain_ls Demo.tools "list files"
      (mkSession [] 0) Demo.env0 in
  turn_end = TaskDone /\
  last_prompt_tokens s' = 0%Z /\
  length (provider_calls env') = 2%nat.
Proof.
  assert (1 < max_iterations)%nat as H1 by (unfold max_iterations; lia).
  split; [exact H1|].
  pose proof (answer_without_tool_calls_ends_turn Demo.rich Demo.chain_ls
                Demo.tools "list files" (mkSession [] 0) Demo.env0 1
                (mkSession
                   [HumanMessage "list files";
                    AIMessage (mkResponse "" [Demo.call_ls] None);
                    ToolResult (mkToolMessage "a.txt" "run_command" "c1")] 0)
                (mkEnv 2%nat
                   [Separator; IterationLine 1 50; BlankLine; TokensUnavailable;
                    ToolCallPanel "run_command" (JObj [("cmd", JStr "ls")]);
                    ResultPanel "[bold green]Результат 'run_command':[/]a.txt"]
                   [[HumanMessage "list files"]])
                (mkResponse "a.txt" [] None) 3%nat H1
                ltac:(vm_compute; reflexivity) eq_refl eq_refl)
    as H.
  destruct (run_turn Demo.rich Demo.chain_ls Demo.tools "list files"
              (mkSession [] 0) Demo.env0) as [[turn_end s'] env'].
  destruct H as (Hend & Hs & _ & _ & Hlen).
  split; [exact Hend|]. split; [now rewrite Hs | exact Hlen].
Defined.

Lemma compress_command_twice_witness :
  (1 < length (chat_history (mkSession Demo.two_messages 4200)))%nat /\
  Demo.compressor_ok (Demo.two_messages ++ [HumanMessage compression_prompt_text])
    (world Demo.env0) = (Returned (mkResponse "s" [] None), 1%nat) /\
  renders Demo.rich (summary_markup "s") = true /\
  let '(s1, env1) :=
    compress_command Demo.rich Demo.compressor_ok
      (mkSession Demo.two_messages 4200) Demo.env0 in
  s1 = mkSession [HumanMessage (summary_prefix +:+ "s")] 0 /\
  world env1 = 1%nat /\
  compress_command Demo.rich Demo.compressor_ok s1 env1 =
    (s1, mkEnv 1%nat (console env1 ++ [HistoryTooShort]) (provider_calls env1)).
Proof.
  assert (1 < length (chat_history (mkSession Demo.two_messages 4200)))%nat
    as H1 by (simpl; lia).
  assert (renders Demo.rich (summary_markup "s") = true) as H3
    by (vm_compute; reflexivity).
  split; [exact H1|]. split; [reflexivity|]. split; [exact H3|].
  exact (compress_command_twice Demo.rich Demo.compressor_ok
           (mkSession Demo.two_messages 4200) Demo.env0
           (mkResponse "s" [] None) 1%nat H1 eq_refl H3).
Defined.

Lemma session_exit_ignores_rest_witness :
  is_exit DemoTools.lower DemoTools.strip "quit" = true /\
  interactive Demo.rich Demo.compressor_ok Demo.chain_ls Demo.tools
    DemoTools.lower DemoTools.strip (["list files"] ++ "quit" :: ["more"])
    (mkSession [] 0) Demo.env0
  = interactive Demo.rich Demo.compressor_ok Demo.chain_ls Demo.tools
      DemoTools.lower DemoTools.strip (["list files"] ++ ["quit"])
      (mkSession [] 0) Demo.env0.
Proof.
  split; [reflexivity|].
  exact (session_exit_ignores_rest Demo.rich Demo.compressor_ok Demo.chain_ls
           Demo.tools DemoTools.lower DemoTools.strip ["list files"] ["more"]
           "quit" (mkSession [] 0) Demo.env0 eq_refl).
Defined.

Lemma session_keeps_history_paired_witness :
  well_paired (chat_history (mkSession DemoTools.well_paired_history 0)) /\
  well_paired
    (chat_history
       (fst (interactive Demo.rich Demo.compressor_ok Demo.chain_ls Demo.tools
               DemoTools.lower DemoTools.strip
               ["and now?"; "/compress"; "list files"]
               (mkSession DemoTools.well_paired_history 0) Demo.env0))).
Proof.
  assert (well_paired (chat_history (mkSession DemoTools.well_paired_history 0)))
    as H1 by reflexivity.
  split; [exact H1|].
  exact (session_keeps_history_paired Demo.rich Demo.compressor_ok
           Demo.chain_ls Demo.tools DemoTools.lower DemoTools.strip
           ["and now?"; "/compress"; "list files"]
           (mkSession DemoTools.well_paired_history 0) Demo.env0 H1).
Defined.

Lemma session_without_compress_appends_witness :
  Forall (fun line => is_compress DemoTools.lower DemoTools.strip line = false)
    ["and now?"; "q"] /\
  DemoTools.well_paired_history `prefix_of`
    chat_history
      (fst (interactive Demo.rich Demo.compressor_ok Demo.chain_ls Demo.tools
              DemoTools.lower DemoTools.strip ["and now?"; "q"]
              (mkSession DemoTools.well_paired_history 0) Demo.env0)).
Proof.
  assert (Forall (fun line =>
                    is_compress DemoTools.lower DemoTools.strip line = false)
            ["and now?"; "q"]) as H1 by (repeat constructor).
  split; [exact H1|].
  exact (session_without_compress_appends Demo.rich Demo.compressor_ok
           Demo.chain_ls Demo.tools DemoTools.lower DemoTools.strip
           ["and now?"; "q"] (mkSession DemoTools.well_paired_history 0)
           Demo.env0 H1).
Defined.

Lemma context_bar_has_twenty_cells_witness :
  (0 < 64000)%Z /\
  (0 <= filled (context_percent 64000) <= 20)%Z /\
  length (bar (filled (context_percent 64000))) = 20%nat /\
  (filled (context_percent 64000) = 20%Z <-> (MAX_CONTEXT_TOKENS <= 64000)%Z).
Proof.
  assert (0 < 64000)%Z as H1 by lia.
  split; [exact H1|].
  exact (context_bar_has_twenty_cells 64000 H1).
Defined.

(** X19 at a request that is answered, and at a request whose name rich
    rejects. *)
Lemma tool_calls_continue_turn_witness :
  (loop_state Demo.rich Demo.chain_ls Demo.tools "list files" (mkSession [] 0)
     Demo.env0 0
     = Some (mkSession [HumanMessage "list files"] 0,
             mkEnv 0%nat [Separator] []) /\
   Demo.chain_ls [HumanMessage "list files"] 0%nat
     = (Returned (mkResponse "" [Demo.call_ls] None), 1%nat) /\
   tool_calls (mkResponse "" [Demo.call_ls] None) <> [] /\
   process_tool_calls Demo.rich [Demo.call_ls] Demo.tools
     (dispatch_env 0 (mkSession [HumanMessage "list files"] 0)
        (mkEnv 0%nat [Separator] []) (mkResponse "" [Demo.call_ls] None) 1%nat)
   = (Returned [mkToolMessage "a.txt" "run_command" "c1"],
      mkEnv 2%nat
        [Separator; IterationLine 1 50; BlankLine; TokensUnavailable;
         ToolCallPanel "run_command" (JObj [("cmd", JStr "ls")]);
         ResultPanel "[bold green]Результат 'run_command':[/]a.txt"]
        [[HumanMessage "list files"]]) /\
   loop_state Demo.rich Demo.chain_ls Demo.tools "list files"
     (mkSession [] 0) Demo.env0 1
   = Some (mkSession
             ([HumanMessage "list files"]
                ++ AIMessage (mkResponse "" [Demo.call_ls] None)
                :: map ToolResult [mkToolMessage "a.txt" "run_command" "c1"])
             (next_prompt_tokens (mkResponse "" [Demo.call_ls] None)),
           mkEnv 2%nat
             [Separator; IterationLine 1 50; BlankLine; TokensUnavailable;
              ToolCallPanel "run_command" (JObj [("cmd", JStr "ls")]);
              ResultPanel "[bold green]Результат 'run_command':[/]a.txt"]
             [[HumanMessage "list files"]])) /\
  (loop_state Demo.rich Demo.chain_tag Demo.tools "go" (mkSession [] 0)
     Demo.env0 0
     = Some (mkSession [HumanMessage "go"] 0, mkEnv 0%nat [Separator] []) /\
   Demo.chain_tag [HumanMessage "go"] 0%nat
     = (Returned (mkResponse "" [Demo.call_tag] None), 1%nat) /\
   tool_calls (mkResponse "" [Demo.call_tag] None) <> [] /\
   process_tool_calls Demo.rich [Demo.call_tag] Demo.tools
     (dispatch_env 0 (mkSession [HumanMessage "go"] 0)
        (mkEnv 0%nat [Separator] []) (mkResponse "" [Demo.call_tag] None) 1%nat)
   = (Raised (mkException "closing tag '[/b]' doesn't match any open tag"),
      mkEnv 1%nat
        [Separator; IterationLine 1 50; BlankLine; TokensUnavailable]
        [[HumanMessage "go"]]) /\
   loop_state Demo.rich Demo.chain_tag Demo.tools "go" (mkSession [] 0)
     Demo.env0 1 = None /\
   iteration Demo.rich Demo.chain_tag Demo.tools 0
     (mkSession [HumanMessage "go"] 0) (mkEnv 0%nat [Separator] [])
   = (Some (CriticalError
              (mkException "closing tag '[/b]' doesn't match any open tag")),
      mkSession [HumanMessage "go"]
        (next_prompt_tokens (mkResponse "" [Demo.call_tag] None)),
      mkEnv 1%nat
        [Separator; IterationLine 1 50; BlankLine; TokensUnavailable]
        [[HumanMessage "go"]])).
Proof.
  assert (tool_calls (mkResponse "" [Demo.call_ls] None) <> []) as H3
    by discriminate.
  assert (tool_calls (mkResponse "" [Demo.call_tag] None) <> []) as H3'
    by discriminate.
  split.
  - split; [reflexivity|]. split; [reflexivity|]. split; [exact H3|].
    pose proof (tool_calls_continue_turn Demo.rich Demo.chain_ls Demo.tools
                  "list files" (mkSession [] 0) Demo.env0 0
                  (mkSession [HumanMessage "list files"] 0)
                  (mkEnv 0%nat [Separator] [])
                  (mkResponse "" [Demo.call_ls] None) 1%nat eq_refl eq_refl H3)
      as H.
    cbn [tool_calls] in H.
    destruct (process_tool_calls Demo.rich [Demo.call_ls] Demo.tools _)
      as [[tool_messages|e] env'] eqn:Hd in H.
    + assert ((Returned tool_messages, env')
              = (Returned [mkToolMessage "a.txt" "run_command" "c1"],
                 mkEnv 2%nat
                   [Separator; IterationLine 1 50; BlankLine; TokensUnavailable;
                    ToolCallPanel "run_command" (JObj [("cmd", JStr "ls")]);
                    ResultPanel "[bold green]Результат 'run_command':[/]a.txt"]
                   [[HumanMessage "list files"]])) as Heq
        by (rewrite <- Hd; vm_compute; reflexivity).
      injection Heq as -> ->. split; [exact Hd|]. exact (proj1 H).
    + exfalso. vm_compute in Hd. discriminate.
  - split; [reflexivity|]. split; [reflexivity|]. split; [exact H3'|].
    pose proof (tool_calls_continue_turn Demo.rich Demo.chain_tag Demo.tools
                  "go" (mkSession [] 0) Demo.env0 0
                  (mkSession [HumanMessage "go"] 0)
                  (mkEnv 0%nat [Separator] [])
                  (mkResponse "" [Demo.call_tag] None) 1%nat eq_refl eq_refl H3')
      as H.
    cbn [tool_calls] in H.
    destruct (process_tool_calls Demo.rich [Demo.call_tag] Demo.tools _)
      as [[tool_messages|e] env'] eqn:Hd in H.
    + exfalso. vm_compute in Hd. discriminate.
    + assert ((@Raised (list ToolMessage) e, env')
              = (Raised
                   (mkException "closing tag '[/b]' doesn't match any open tag"),
                 mkEnv 1%nat
                   [Separator; IterationLine 1 50; BlankLine; TokensUnavailable]
                   [[HumanMessage "go"]])) as Heq
        by (rewrite <- Hd; vm_compute; reflexivity).
      injection Heq as -> ->. split; [exact Hd|].
      split; [exact (proj1 H) | exact (proj1 (proj2 H))].
Defined.
